(** * Retro Skins Platform: skin model, adapters and command-line dispatch

    A shallow embedding of [src/engine/skins.ts] (the skin model and the
    preset catalog) and of [src/cli.ts] (the [preview], [generate] and
    [apply] actions), followed by the properties of the translation layer.
    The four adapters of [src/engine/adapters/] are not among the sources
    at hand: the dispatch takes them as parameters, and a model of them
    written from the specification stands in where a property is about
    their output.

    Conventions.
    - A JavaScript [string] is a Rocq [string]; the non-ASCII characters of
      the messages are kept as their UTF-8 bytes, which is what Node writes
      to the output streams.
    - A JavaScript [number] is a rational [Q] holding the value of the
      decimal literal of the source.  The double the engine stores for
      [0.4] is the one nearest to it; comparisons with [0] and [1], which
      are doubles themselves, are the same on both.
    - An optional property ([palette?], the properties of a [Partial<_>])
      is an [option]: [None] is [undefined]. *)

From Stdlib Require Import String Ascii List Bool Arith ZArith QArith Lia.
From Stdlib Require Import DecimalString.
Import ListNotations.

Close Scope Q_scope.
Open Scope list_scope.
Open Scope string_scope.

(* ================================================================= *)
(** ** JavaScript helpers used by the sources *)

Module Js.

Definition number := Q.

(** [x || d] on an optional string: [undefined] and the empty string are
    the falsy strings. *)
Definition or_string (x : option string) (d : string) : string :=
  match x with
  | Some s => if String.eqb s "" then d else s
  | None => d
  end.

(** [x || d] on an optional array or object: every array and every object
    is truthy, only [undefined] is replaced. *)
Definition or_object {A : Type} (x : option A) (d : A) : A :=
  match x with
  | Some a => a
  | None => d
  end.

(** Truthiness of an optional string, as tested by [if (s)]. *)
Definition truthy (x : option string) : bool :=
  match x with
  | Some s => negb (String.eqb s "")
  | None => false
  end.

(** [Array.prototype.includes] on an array of strings. *)
Definition includes (l : list string) (s : string) : bool :=
  existsb (String.eqb s) l.

(** [Array.prototype.join]. *)
Fixpoint join (sep : string) (l : list string) : string :=
  match l with
  | [] => ""
  | [s] => s
  | s :: rest => s ++ sep ++ join sep rest
  end.

(** [String.prototype.repeat]. *)
Fixpoint repeat (s : string) (n : nat) : string :=
  match n with
  | O => ""
  | S k => s ++ repeat s k
  end.

(** The newline and the double-quote characters. *)
Definition nl : string := String (ascii_of_nat 10) "".
Definition dq : string := String (ascii_of_nat 34) "".

(** [String.prototype.padEnd] with the default filler, a space, on a
    string of ASCII characters (whose length in bytes is its length in
    code units): no padding once the target length is reached. *)
Definition padEnd (s : string) (targetLength : nat) : string :=
  s ++ repeat " " (targetLength - String.length s).

(** [String.prototype.startsWith]. *)
Definition startsWith (s p : string) : bool := String.prefix p s.

(** [String(n)] for an array length. *)
Definition string_of_nat (n : nat) : string :=
  NilEmpty.string_of_uint (Nat.to_uint n).

(** The properties every object literal inherits from [Object.prototype]
    (Node.js): a bracket lookup [obj[key]] finds them when [obj] has no
    own property [key]. *)
Definition Object_prototype_keys : list string :=
  [ "constructor"; "__defineGetter__"; "__defineSetter__"; "hasOwnProperty";
    "__lookupGetter__"; "__lookupSetter__"; "isPrototypeOf";
    "propertyIsEnumerable"; "toString"; "valueOf"; "__proto__";
    "toLocaleString" ].

(** The result of [obj[key]] on an object literal whose own properties
    hold values of type [A]. *)
Inductive property (A : Type) : Type :=
| Own (a : A)
| Inherited
| Undefined.

Arguments Own {A} a.
Arguments Inherited {A}.
Arguments Undefined {A}.

Fixpoint own_property {A : Type} (obj : list (string * A)) (key : string) : option A :=
  match obj with
  | [] => None
  | (k, a) :: rest => if String.eqb k key then Some a else own_property rest key
  end.

Definition get {A : Type} (obj : list (string * A)) (key : string) : property A :=
  match own_property obj key with
  | Some a => Own a
  | None => if includes Object_prototype_keys key then Inherited else Undefined
  end.

(** [Object.keys] and [Object.entries] of an object literal: the own
    properties in insertion order. *)
Definition keys {A : Type} (obj : list (string * A)) : list string := map fst obj.

End Js.

(* ================================================================= *)
(** ** The skin model ([src/engine/skins.ts]) *)

Module Skins.

Import Js.
Local Open Scope Q_scope.

Inductive EffectType : Type :=
| crt_scanlines
| crt_curvature
| crt_flicker
| phosphor_glow
| phosphor_persistence
| shake
| animated_bg
| color_shift
| vignette
| noise.

(** The string each [EffectType] literal denotes. *)
Definition EffectType_string (t : EffectType) : string :=
  match t with
  | crt_scanlines => "crt-scanlines"
  | crt_curvature => "crt-curvature"
  | crt_flicker => "crt-flicker"
  | phosphor_glow => "phosphor-glow"
  | phosphor_persistence => "phosphor-persistence"
  | shake => "shake"
  | animated_bg => "animated-bg"
  | color_shift => "color-shift"
  | vignette => "vignette"
  | noise => "noise"
  end.

(** [params : Partial<Record<string, number>>]: the properties in the
    order of the literal; the declared value type is [number | undefined]. *)
Record VisualEffect : Type := {
  type : EffectType;
  intensity : number;
  params : list (string * option number)
}.

(** The inline type of [ColorScheme.palette]. *)
Record Palette : Type := {
  black : string;
  red : string;
  green : string;
  yellow : string;
  blue : string;
  purple : string;
  cyan : string;
  white : string;
  brightBlack : string;
  brightRed : string;
  brightGreen : string;
  brightYellow : string;
  brightBlue : string;
  brightPurple : string;
  brightCyan : string;
  brightWhite : string
}.

Record ColorScheme : Type := {
  background : string;
  foreground : string;
  accent : string;
  glow : string;
  palette : option Palette
}.

Inductive Quality : Type := low | medium | high.

Record PerformanceConfig : Type := {
  gpuAcceleration : bool;
  targetFps : number;
  quality : Quality
}.

Record SkinConfig : Type := {
  name : string;
  effects : list VisualEffect;
  colors : ColorScheme;
  performance : PerformanceConfig
}.

(** [Partial<SkinConfig>]. *)
Record PartialSkinConfig : Type := {
  p_name : option string;
  p_effects : option (list VisualEffect);
  p_colors : option ColorScheme;
  p_performance : option PerformanceConfig
}.

Definition default_colors : ColorScheme :=
  {| background := "#0D0208";
     foreground := "#00FF41";
     accent := "#008F11";
     glow := "#00FF41";
     palette := None |}.

Definition default_performance : PerformanceConfig :=
  {| gpuAcceleration := true; targetFps := 60; quality := high |}.

Definition createSkin (config : PartialSkinConfig) : SkinConfig :=
  {| name := or_string (p_name config) "Default";
     effects := or_object (p_effects config) [];
     colors := or_object (p_colors config) default_colors;
     performance := or_object (p_performance config) default_performance |}.

Definition phosphor (_ : unit) : SkinConfig := createSkin
  {| p_name := Some "Phosphor CRT";
     p_effects := Some
       [ {| type := crt_scanlines; intensity := 0.4; params := [("lineSpacing", Some 2)] |};
         {| type := phosphor_glow; intensity := 0.6; params := [("radius", Some 3); ("falloff", Some 0.5)] |};
         {| type := phosphor_persistence; intensity := 0.3; params := [("decay", Some 0.1)] |};
         {| type := crt_flicker; intensity := 0.1; params := [("frequency", Some 0.1)] |};
         {| type := vignette; intensity := 0.5; params := [("radius", Some 0.8)] |} ];
     p_colors := Some
       {| background := "#0D0208"; foreground := "#00FF41";
          accent := "#008F11"; glow := "#00FF41";
          palette := Some
            {| black := "#0D0208";
               red := "#FF3333";
               green := "#00FF41";
               yellow := "#CCFF00";
               blue := "#008F11";
               purple := "#FF00FF";
               cyan := "#00FFFF";
               white := "#00FF41";
               brightBlack := "#1A1A1A";
               brightRed := "#FF6666";
               brightGreen := "#66FF66";
               brightYellow := "#FFFF66";
               brightBlue := "#66FF66";
               brightPurple := "#FF66FF";
               brightCyan := "#66FFFF";
               brightWhite := "#66FF66" |} |};
     p_performance := None |}.

Definition amber (_ : unit) : SkinConfig := createSkin
  {| p_name := Some "Amber Monochrome";
     p_effects := Some
       [ {| type := crt_scanlines; intensity := 0.3; params := [("lineSpacing", Some 2)] |};
         {| type := phosphor_glow; intensity := 0.5; params := [("radius", Some 2); ("falloff", Some 0.6)] |};
         {| type := crt_flicker; intensity := 0.05; params := [("frequency", Some 0.05)] |};
         {| type := vignette; intensity := 0.4; params := [("radius", Some 0.9)] |} ];
     p_colors := Some
       {| background := "#1A0F00"; foreground := "#FFB000";
          accent := "#FF8C00"; glow := "#FFB000";
          palette := Some
            {| black := "#1A0F00";
               red := "#FF6600";
               green := "#FFB000";
               yellow := "#FFCC00";
               blue := "#994400";
               purple := "#FF8800";
               cyan := "#FFAA00";
               white := "#FFB000";
               brightBlack := "#332200";
               brightRed := "#FF8800";
               brightGreen := "#FFCD00";
               brightYellow := "#FFDD66";
               brightBlue := "#AA6600";
               brightPurple := "#FF9900";
               brightCyan := "#FFDD88";
               brightWhite := "#FFEE99" |} |};
     p_performance := None |}.

Definition lcd (_ : unit) : SkinConfig := createSkin
  {| p_name := Some "LCD Display";
     p_effects := Some
       [ {| type := crt_scanlines; intensity := 0.2; params := [("lineSpacing", Some 1)] |};
         {| type := phosphor_glow; intensity := 0.3; params := [("radius", Some 1); ("falloff", Some 0.8)] |};
         {| type := color_shift; intensity := 0.1; params := [("shift", Some 0.02)] |};
         {| type := vignette; intensity := 0.2; params := [("radius", Some 0.95)] |} ];
     p_colors := Some
       {| background := "#0A0A0A"; foreground := "#E8E8E8";
          accent := "#A0A0A0"; glow := "#FFFFFF";
          palette := Some
            {| black := "#0A0A0A";
               red := "#FF4444";
               green := "#44FF44";
               yellow := "#FFFF44";
               blue := "#4444FF";
               purple := "#FF44FF";
               cyan := "#44FFFF";
               white := "#E8E8E8";
               brightBlack := "#333333";
               brightRed := "#FF8888";
               brightGreen := "#88FF88";
               brightYellow := "#FFFF88";
               brightBlue := "#8888FF";
               brightPurple := "#FF88FF";
               brightCyan := "#88FFFF";
               brightWhite := "#FFFFFF" |} |};
     p_performance := None |}.

Definition cyber (_ : unit) : SkinConfig := createSkin
  {| p_name := Some "Cyber Purple";
     p_effects := Some
       [ {| type := crt_scanlines; intensity := 0.35; params := [("lineSpacing", Some 2)] |};
         {| type := phosphor_glow; intensity := 0.7; params := [("radius", Some 4); ("falloff", Some 0.4)] |};
         {| type := crt_flicker; intensity := 0.08; params := [("frequency", Some 0.08)] |};
         {| type := animated_bg; intensity := 0.3; params := [("speed", Some 0.5)] |};
         {| type := noise; intensity := 0.05; params := [("amount", Some 0.02)] |} ];
     p_colors := Some
       {| background := "#0D0D1A"; foreground := "#B388FF";
          accent := "#7C4DFF"; glow := "#E040FB";
          palette := Some
            {| black := "#0D0D1A";
               red := "#FF0055";
               green := "#00FF66";
               yellow := "#FFFF00";
               blue := "#0085FF";
               purple := "#B388FF";
               cyan := "#00FFFF";
               white := "#E0E0FF";
               brightBlack := "#2A2A3A";
               brightRed := "#FF4488";
               brightGreen := "#66FF99";
               brightYellow := "#FFFF66";
               brightBlue := "#6699FF";
               brightPurple := "#D199FF";
               brightCyan := "#99FFFF";
               brightWhite := "#FFFFFF" |} |};
     p_performance := None |}.

Definition terminal (_ : unit) : SkinConfig := createSkin
  {| p_name := Some "Classic Terminal";
     p_effects := Some
       [ {| type := crt_scanlines; intensity := 0.25; params := [("lineSpacing", Some 2)] |};
         {| type := phosphor_glow; intensity := 0.4; params := [("radius", Some 2); ("falloff", Some 0.5)] |};
         {| type := vignette; intensity := 0.3; params := [("radius", Some 0.85)] |} ];
     p_colors := Some
       {| background := "#0C0C14"; foreground := "#4AF626";
          accent := "#2AAE22"; glow := "#4AF626";
          palette := Some
            {| black := "#0C0C14";
               red := "#CC3333";
               green := "#4AF626";
               yellow := "#CCFF00";
               blue := "#0066CC";
               purple := "#FF00FF";
               cyan := "#00CCFF";
               white := "#4AF626";
               brightBlack := "#1A1A2A";
               brightRed := "#FF6666";
               brightGreen := "#88FF88";
               brightYellow := "#FFFF66";
               brightBlue := "#6699FF";
               brightPurple := "#FF66FF";
               brightCyan := "#66FFFF";
               brightWhite := "#99FF99" |} |};
     p_performance := None |}.

Definition puncore (_ : unit) : SkinConfig := createSkin
  {| p_name := Some "Puncore Neon";
     p_effects := Some
       [ {| type := crt_scanlines; intensity := 0.1; params := [("lineSpacing", Some 1)] |};
         {| type := phosphor_glow; intensity := 0.5; params := [("radius", Some 3); ("falloff", Some 0.4)] |};
         {| type := vignette; intensity := 0.15; params := [("radius", Some 0.95)] |} ];
     p_colors := Some
       {| background := "#575757"; foreground := "#858585";
          accent := "#FF5700"; glow := "#8500FF";
          palette := Some
            {| black := "#575757";
               red := "#FF0085";
               green := "#00FF00";
               yellow := "#FF5700";
               blue := "#0085FF";
               purple := "#8500FF";
               cyan := "#0085FF";
               white := "#858585";
               brightBlack := "#313131";
               brightRed := "#FF0085";
               brightGreen := "#00FF00";
               brightYellow := "#FF8500";
               brightBlue := "#0085FF";
               brightPurple := "#8500FF";
               brightCyan := "#00FFFF";
               brightWhite := "#FFFFFF" |} |};
     p_performance := None |}.

(** A [SkinConfig] passed where a [Partial<SkinConfig>] is expected:
    every property is present. *)
Definition as_partial (skin : SkinConfig) : PartialSkinConfig :=
  {| p_name := Some (name skin);
     p_effects := Some (effects skin);
     p_colors := Some (colors skin);
     p_performance := Some (performance skin) |}.

(** [PRESET_SKINS]: the own properties of the catalog in the order of the
    object literal. *)
Definition PRESET_SKINS : list (string * (unit -> SkinConfig)) :=
  [ ("phosphor", phosphor);
    ("amber", amber);
    ("lcd", lcd);
    ("cyber", cyber);
    ("terminal", terminal);
    ("puncore", puncore) ].

(** The keys the catalog is documented to hold (README, "Available
    Skins"). *)
Definition preset_keys : list string :=
  [ "phosphor"; "amber"; "lcd"; "cyber"; "terminal"; "puncore" ].

(** The sixteen slots of a palette with their property names, base colours
    first and bright colours after them. *)
Definition palette_slots (p : Palette) : list (string * string) :=
  [ ("black", black p); ("red", red p); ("green", green p);
    ("yellow", yellow p); ("blue", blue p); ("purple", purple p);
    ("cyan", cyan p); ("white", white p);
    ("brightBlack", brightBlack p); ("brightRed", brightRed p);
    ("brightGreen", brightGreen p); ("brightYellow", brightYellow p);
    ("brightBlue", brightBlue p); ("brightPurple", brightPurple p);
    ("brightCyan", brightCyan p); ("brightWhite", brightWhite p) ].

End Skins.

(* ================================================================= *)
(** ** Thrown values and the process the actions run in *)

Module Process.

(** The values the program can throw.  [TypeError] is the engine's own
    (calling a non-function, reading a property of [undefined]);
    [SystemError] is the error [fs.writeFileSync] throws when the write
    to [path] fails (a missing directory, no permission, a directory in
    the way).

    Modelled from the spec: [MalformedColorError], the error of the
    adapters ([src/engine/adapters/*/index.ts], absent from the sources at
    hand); it carries the colour string that failed the pattern. *)
Inductive exception : Type :=
| TypeError
| SystemError (path : string)
| MalformedColorError (color : string).

(** The completion of a call that returns a value or throws. *)
Inductive completion (A : Type) : Type :=
| Normal (a : A)
| Throw (e : exception).

Arguments Normal {A} a.
Arguments Throw {A} e.

(** What a run has produced so far: one entry per [console.log] call, one
    per [console.error] call, and one per [fs.writeFileSync] call that
    completed (path and contents), oldest first. *)
Record Output : Type := {
  stdout : list string;
  stderr : list string;
  files : list (string * string)
}.

Definition no_output : Output := {| stdout := []; stderr := []; files := [] |}.

(** One step of an action: it goes on with a value, leaves through
    [process.exit(code)], or throws. *)
Inductive Step (A : Type) : Type :=
| Next (a : A) (o : Output)
| Exit (code : Z) (o : Output)
| Uncaught (e : exception) (o : Output).

Arguments Next {A} a o.
Arguments Exit {A} code o.
Arguments Uncaught {A} e o.

Definition Action (A : Type) : Type := Output -> Step A.

Definition ret {A : Type} (a : A) : Action A := fun o => Next a o.

Definition bind {A B : Type} (m : Action A) (k : A -> Action B) : Action B :=
  fun o =>
    match m o with
    | Next a o' => k a o'
    | Exit code o' => Exit code o'
    | Uncaught e o' => Uncaught e o'
    end.

Definition console_log (s : string) : Action unit :=
  fun o => Next tt {| stdout := (stdout o ++ [s])%list; stderr := stderr o; files := files o |}.

Definition console_error (s : string) : Action unit :=
  fun o => Next tt {| stdout := stdout o; stderr := (stderr o ++ [s])%list; files := files o |}.

(** [fs.writeFileSync]: [writable path] tells whether the file system the
    process runs in lets the write to [path] complete; otherwise the call
    throws and no file is recorded. *)
Definition writeFileSync (writable : string -> bool) (path contents : string) : Action unit :=
  fun o =>
    if writable path
    then Next tt {| stdout := stdout o; stderr := stderr o;
                    files := (files o ++ [(path, contents)])%list |}
    else Uncaught (SystemError path) o.

Definition process_exit {A : Type} (code : Z) : Action A := fun o => Exit code o.

Definition throw {A : Type} (e : exception) : Action A := fun o => Uncaught e o.

(** A call that may throw, made inside an action. *)
Definition call {A : Type} (c : completion A) : Action A :=
  match c with
  | Normal a => ret a
  | Throw e => throw e
  end.

(** [forEach] over an array. *)
Fixpoint forEach {A : Type} (l : list A) (f : A -> Action unit) : Action unit :=
  match l with
  | [] => ret tt
  | a :: rest => bind (f a) (fun _ => forEach rest f)
  end.

(** How the process ends: by running off the end of the action or through
    [process.exit], or on an uncaught exception. *)
Inductive Ending : Type :=
| Exited (code : Z)
| Crashed (e : exception).

Record Result : Type := {
  output : Output;
  ending : Ending
}.

Definition run (m : Action unit) : Result :=
  match m no_output with
  | Next _ o => {| output := o; ending := Exited 0 |}
  | Exit code o => {| output := o; ending := Exited code |}
  | Uncaught e o => {| output := o; ending := Crashed e |}
  end.

(** The exit code of the process; Node exits with code 1 on an uncaught
    exception, after printing the error and its stack to standard error
    (that text is not part of [stderr] here, the thrown value is kept in
    [Crashed] instead). *)
Definition exit_code (r : Result) : Z :=
  match ending r with
  | Exited code => code
  | Crashed _ => 1
  end.

End Process.

Declare Scope action_scope.
Delimit Scope action_scope with action.
Notation "x <- m ;; k" := (Process.bind m (fun x => k))
  (at level 61, m at next level, right associativity) : action_scope.
Notation "m ;; k" := (Process.bind m (fun _ => k))
  (at level 61, right associativity) : action_scope.

(* ================================================================= *)
(** ** The command-line dispatch ([src/cli.ts]) *)

Module Cli.

Import Js Skins Process.
Local Open Scope action_scope.

Definition VALID_TERMINALS : list string :=
  [ "wezterm"; "alacritty"; "kitty"; "windows-terminal" ].

(** The options object commander passes to [preview]; [terminal] and
    [dryRun] carry a prefix here, the bare names being taken. *)
Record PreviewOptions : Type := {
  preview_terminal : option string;
  preview_dryRun : bool
}.

(** The options object commander passes to [generate] and to [apply]
    ([apply] declares [--output] only); [output] is [output_file] here. *)
Record GenerateOptions : Type := {
  output_file : option string;
  dryRun : bool
}.

Section Dispatch.

(** [String.prototype.toLowerCase] and [toUpperCase]: the engine's
    Unicode case mappings, left open here. *)
Variable toLowerCase : string -> string.
Variable toUpperCase : string -> string.

(** [process.cwd()] and [path.join]. *)
Variable cwd : string.
Variable path_join : string -> string -> string.

(** The file system: the paths a write to which completes. *)
Variable writable : string -> bool.

(** The four adapters imported from [./engine/adapters/*/index.js]. *)
Variable generateWezTermLua : SkinConfig -> completion string.
Variable generateAlacrittyYaml : SkinConfig -> completion string.
Variable generateKittyConfig : SkinConfig -> completion string.
Variable generateWindowsTerminalJson : SkinConfig -> completion string.

(** The guard on the skin name shared by [preview] and [generate]:
    [const skinFn = PRESET_SKINS[skinName]; if (!skinFn) { ... }] and the
    call [skinFn()] after it.  [undefined] is the only falsy value the
    lookup can give.  A property inherited from [Object.prototype] is
    truthy and passes the guard, but is no producer of skins: with
    [returns = false] the call [skinFn()] throws ([__proto__] is not
    callable, [valueOf], [hasOwnProperty] and the like reject the
    [undefined] receiver); with [returns = true] it gives a value that has
    no [name] and no [colors] ([constructor], [toString],
    [isPrototypeOf]). *)
Inductive skin_lookup : Type :=
| Producer (skinFn : unit -> SkinConfig)
| NotAProducer (returns : bool)
| Missing.

Definition lookup_skin (skinName : string) : skin_lookup :=
  match get PRESET_SKINS skinName with
  | Own skinFn => Producer skinFn
  | Inherited =>
      NotAProducer (includes ["constructor"; "toString"; "isPrototypeOf"] skinName)
  | Undefined => Missing
  end.

Definition unknown_skin {A : Type} (skinName : string) : Action A :=
  console_error ("❌ Unknown skin: " ++ skinName);;
  console_log ("   Available: " ++ join ", " (keys PRESET_SKINS));;
  process_exit 1.

Definition invalid_terminal {A : Type} (terminal : string) : Action A :=
  console_error ("❌ Invalid terminal: " ++ terminal);;
  console_log ("   Valid options: " ++ join ", " VALID_TERMINALS);;
  process_exit 1.

(** The [if / else if / else] chain on the lower-cased terminal name that
    all three actions use to pick the adapter. *)
Definition select_adapter (terminal : string) : SkinConfig -> completion string :=
  if String.eqb terminal "wezterm" then generateWezTermLua
  else if String.eqb terminal "alacritty" then generateAlacrittyYaml
  else if String.eqb terminal "windows-terminal" then generateWindowsTerminalJson
  else generateKittyConfig.

(** [preview <skin>]: lines 44 to 68. *)
Definition preview_skin (skinName : string) (options : PreviewOptions) : Action unit :=
  match lookup_skin skinName with
  | Missing => unknown_skin skinName
  | NotAProducer false => throw TypeError
  | NotAProducer true =>
      console_log (nl ++ "🎨 " ++ "undefined" ++ " (" ++ skinName ++ ")");;
      console_log "   Colors:";;
      throw TypeError
  | Producer skinFn =>
      let skin := skinFn tt in
      console_log (nl ++ "🎨 " ++ name skin ++ " (" ++ skinName ++ ")");;
      console_log "   Colors:";;
      console_log ("     Background: " ++ background (colors skin));;
      console_log ("     Foreground: " ++ foreground (colors skin));;
      console_log ("     Accent:     " ++ accent (colors skin));;
      console_log ("     Glow:       " ++ glow (colors skin));;
      console_log ("   Effects: " ++
                   join ", " (map (fun e => EffectType_string (type e)) (effects skin)));;
      if truthy (preview_terminal options) then
        let given := or_string (preview_terminal options) "" in
        console_log (nl ++ "📄 " ++ toUpperCase given ++ " Preview:");;
        console_log (repeat "─" 40);;
        let terminal := toLowerCase given in
        config <- call (select_adapter terminal skin);;
        console_log config
      else ret tt
  end.

(** [preview] without a skin name: lines 70 to 78. *)
Definition preview_all : Action unit :=
  console_log (nl ++ "🎨 All Skins Preview:" ++ nl);;
  forEach PRESET_SKINS (fun entry =>
    let skin := snd entry tt in
    console_log ("  " ++ fst entry ++ ":");;
    console_log ("    Name:      " ++ name skin);;
    console_log ("    Colors:    " ++ background (colors skin) ++ " → " ++
                 foreground (colors skin));;
    console_log ("    Effects:   " ++ string_of_nat (List.length (effects skin)) ++ " active")).

(** The [preview [skin]] action. *)
Definition preview (skinName : option string) (options : PreviewOptions) : Action unit :=
  (if truthy skinName
   then preview_skin (or_string skinName "") options
   else preview_all);;
  console_log "".

(** The [generate <terminal> <skin>] action.  An inherited property
    passes the guard here too; the call [skinFn()] throws, or hands the
    adapter a value without [colors], whose first read of a colour
    ([skin.colors.background]) throws a [TypeError]. *)
Definition generate (terminal skinName : string) (options : GenerateOptions) : Action unit :=
  (if negb (includes VALID_TERMINALS (toLowerCase terminal))
   then invalid_terminal terminal
   else ret tt);;
  match lookup_skin skinName with
  | Missing => unknown_skin skinName
  | NotAProducer _ => throw TypeError
  | Producer skinFn =>
      let skinConfig := skinFn tt in
      let terminalType := toLowerCase terminal in
      config <- call (select_adapter terminalType skinConfig);;
      if dryRun options then
        console_log (nl ++ "🔍 Dry Run - " ++ toUpperCase terminal ++ " config for " ++ dq ++
                     name skinConfig ++ dq ++ ":" ++ nl);;
        console_log config;;
        console_log (nl ++ "✅ Would output to: " ++ or_string (output_file options) "stdout")
      else if truthy (output_file options) then
        let out := or_string (output_file options) "" in
        let outputPath := if startsWith out "/" then out else path_join cwd out in
        writeFileSync writable outputPath config;;
        console_log ("✅ Config written to " ++ outputPath)
      else console_log config
  end.

(** The [apply <terminal>] action; [answer] is the key chosen at the
    [inquirer] prompt, whose choices are [Object.keys(PRESET_SKINS)]. *)
Definition apply (terminal : string) (options : GenerateOptions) (answer : string) : Action unit :=
  (if negb (includes VALID_TERMINALS (toLowerCase terminal))
   then invalid_terminal terminal
   else ret tt);;
  match lookup_skin answer with
  | Missing | NotAProducer _ => throw TypeError
  | Producer selectedSkinFn =>
      let skinConfig := selectedSkinFn tt in
      let terminalType := toLowerCase terminal in
      config <-
        (if String.eqb terminalType "wezterm" then
           config <- call (generateWezTermLua skinConfig);;
           ret ("// WezTerm config - copy to ~/.config/wezterm/retro_skin.lua" ++ nl ++ nl ++ config)
         else if String.eqb terminalType "alacritty" then
           config <- call (generateAlacrittyYaml skinConfig);;
           ret ("# Alacritty config - copy to ~/.config/alacritty/retro_skin.yml" ++ nl ++ nl ++ config)
         else if String.eqb terminalType "windows-terminal" then
           config <- call (generateWindowsTerminalJson skinConfig);;
           ret ("// Windows Terminal config - add scheme to settings.json" ++ nl ++ nl ++ config)
         else
           config <- call (generateKittyConfig skinConfig);;
           ret ("# Kitty config - copy to ~/.config/kitty/retro_skin.conf" ++ nl ++ nl ++ config));;
      if truthy (output_file options) then
        let outputPath := path_join cwd (or_string (output_file options) "") in
        writeFileSync writable outputPath config;;
        console_log ("✅ Config written to " ++ outputPath)
      else
        console_log (nl ++ "📄 Generated Config:" ++ nl);;
        console_log config
  end.

End Dispatch.

(** The [list] action (lines 26 to 34); [list] names the type of lists
    here, hence the longer name. *)
Definition list_skins : Action unit :=
  console_log (nl ++ "🎨 Available Skins:" ++ nl);;
  forEach PRESET_SKINS (fun entry =>
    let skin := snd entry tt in
    console_log ("  • " ++ padEnd (fst entry) 10 ++ " " ++ name skin));;
  console_log (nl ++ "📝 Use: retro-skins preview <skin-name>");;
  console_log "".

End Cli.

(* ================================================================= *)
(** ** The colour pattern *)

Module Color.

Definition is_hex_digit (c : ascii) : bool :=
  let n := nat_of_ascii c in
  ((48 <=? n) && (n <=? 57) || (65 <=? n) && (n <=? 70) || (97 <=? n) && (n <=? 102))%nat%bool.

Fixpoint all_hex_digits (s : string) : bool :=
  match s with
  | EmptyString => true
  | String c rest => is_hex_digit c && all_hex_digits rest
  end.

(** Modelled from the spec: the pattern [^#[0-9A-Fa-f]{6}$] of sections 3
    and 8, which no file of the sources at hand spells out: a [#] followed
    by exactly six hexadecimal digits and nothing else. *)
Definition is_hex_color (s : string) : bool :=
  match s with
  | String c rest =>
      Ascii.eqb c "#" && (String.length rest =? 6)%nat && all_hex_digits rest
  | EmptyString => false
  end.

End Color.

(* ================================================================= *)
(** ** The adapters ([src/engine/adapters/*/index.ts]) *)

Module Adapters.

Import Js Skins Process Color.

(** Concatenation of blocks of lines. *)
Local Infix "+++" := (@List.app string) (at level 61, right associativity).

(** Modelled from the spec: what a call could read besides its argument
    (section 4.2: timestamps, random values, the environment).  The
    adapters below receive it and, as the spec demands, never look at it. *)
Record Ambient : Type := {
  now : Z;
  random : nat -> Z;
  env : string -> option string
}.

(** The four targets, in the order of the imports of [src/cli.ts]. *)
Inductive Target : Type := WezTerm | Alacritty | Kitty | WindowsTerminal.

Section Render.

(** Modelled from the spec: the palette-derivation fallback of section 4.2
    for a skin without [palette].  Section 9 leaves the rule open ("pick
    one fixed, documented rule"), so it is a parameter here; every preset
    declares its palette and never reaches it. *)
Variable derive_palette : ColorScheme -> Palette.

Definition palette_of (c : ColorScheme) : Palette :=
  match palette c with
  | Some p => p
  | None => derive_palette c
  end.

(** Modelled from the spec: the fixed slot order shared by the four
    adapters (section 4.2): black, red, green, yellow, blue, purple, cyan,
    white, then the eight bright counterparts in the same order. *)
Definition ansi16 (c : ColorScheme) : list string :=
  map snd (palette_slots (palette_of c)).

(** Modelled from the spec: the colour values an adapter consumes, in the
    order it emits them: [background], [foreground] (cursor and selection
    reuse the two) and the sixteen palette slots. *)
Definition consumed_colors (skin : SkinConfig) : list string :=
  background (colors skin) :: foreground (colors skin) :: ansi16 (colors skin).

(** Modelled from the spec: the validation every adapter applies before
    emission (sections 4.2 and 7): the first consumed colour that fails
    the pattern is reported, and nothing is emitted. *)
Fixpoint first_malformed (cs : list string) : option string :=
  match cs with
  | [] => None
  | c :: rest => if is_hex_color c then first_malformed rest else Some c
  end.

Definition validated (skin : SkinConfig) (emit : SkinConfig -> list string) : completion string :=
  match first_malformed (consumed_colors skin) with
  | Some c => Throw (MalformedColorError c)
  | None => Normal (join nl (emit skin))
  end.

(** Modelled from the spec: the script/Lua-like encoding: a configuration
    table with a [colors] block (foreground, background, the cursor pair,
    the selection pair inverted) and an [ansi] block of the sixteen palette
    colours, then the [return config] trailer. *)
Definition wezterm_lines (skin : SkinConfig) : list string :=
  let fg := foreground (colors skin) in
  let bg := background (colors skin) in
  [ "local config = {";
     "  colors = {";
     "    foreground = '" ++ fg ++ "',";
     "    background = '" ++ bg ++ "',";
     "    cursor_fg = '" ++ fg ++ "',";
     "    cursor_bg = '" ++ bg ++ "',";
     "    selection_fg = '" ++ bg ++ "',";
     "    selection_bg = '" ++ fg ++ "',";
     "    ansi = {" ]
  +++ map (fun c => "      '" ++ c ++ "',") (ansi16 (colors skin))
  +++ [ "    },";
        "  },";
        "}";
        "return config" ].

(** Modelled from the spec: the names the YAML-like and the flat target
    give the eight colours of a row ([purple] is [magenta] there). *)
Definition yaml_color_names : list string :=
  [ "black"; "red"; "green"; "yellow"; "blue"; "magenta"; "cyan"; "white" ].

Definition yaml_entries (cs : list string) : list string :=
  map (fun kv => "    " ++ fst kv ++ ": '" ++ snd kv ++ "'") (combine yaml_color_names cs).

(** Modelled from the spec: the YAML-like encoding: top-level [colors:]
    with [primary:], [cursor:], [selection:], [normal:] (the eight base
    slots) and [bright:] (the eight bright slots). *)
Definition alacritty_lines (skin : SkinConfig) : list string :=
  let fg := foreground (colors skin) in
  let bg := background (colors skin) in
  [ "colors:";
     "  primary:";
     "    background: '" ++ bg ++ "'";
     "    foreground: '" ++ fg ++ "'";
     "  cursor:";
     "    text: '" ++ bg ++ "'";
     "    cursor: '" ++ fg ++ "'";
     "  selection:";
     "    text: '" ++ bg ++ "'";
     "    background: '" ++ fg ++ "'";
     "  normal:" ]
  +++ yaml_entries (firstn 8 (ansi16 (colors skin)))
  +++ [ "  bright:" ]
  +++ yaml_entries (skipn 8 (ansi16 (colors skin))).

(** [color0] .. [color15] paired with the sixteen slots. *)
Fixpoint numbered (i : nat) (cs : list string) : list string :=
  match cs with
  | [] => []
  | c :: rest => ("color" ++ string_of_nat i ++ " " ++ c) :: numbered (S i) rest
  end.

(** Modelled from the spec: the flat key-value encoding: [background],
    [foreground], [cursor], [selection_background], [selection_foreground],
    then [color0] .. [color15]. *)
Definition kitty_lines (skin : SkinConfig) : list string :=
  let fg := foreground (colors skin) in
  let bg := background (colors skin) in
  [ "background " ++ bg;
     "foreground " ++ fg;
     "cursor " ++ fg;
     "selection_background " ++ fg;
     "selection_foreground " ++ bg ]
  +++ numbered 0 (ansi16 (colors skin)).

(** A string between double quotes. *)
Definition json_string (s : string) : string := dq ++ s ++ dq.

(** A JSON member line; the last member of an object takes no comma. *)
Fixpoint json_members (kvs : list (string * string)) : list string :=
  match kvs with
  | [] => []
  | [(k, v)] => [ "      " ++ json_string k ++ ": " ++ json_string v ]
  | (k, v) :: rest => ("      " ++ json_string k ++ ": " ++ json_string v ++ ",") :: json_members rest
  end.

(** Modelled from the spec: the JSON-scheme encoding: a document with a
    ["schemes"] array holding one scheme object with ["background"],
    ["foreground"] and the sixteen ANSI-named keys ["black"] ..
    ["brightWhite"]. *)
Definition windows_terminal_lines (skin : SkinConfig) : list string :=
  [ "{";
     "  " ++ json_string "schemes" ++ ": [";
     "    {" ]
  +++ json_members (("background", background (colors skin))
                    :: ("foreground", foreground (colors skin))
                    :: palette_slots (palette_of (colors skin)))
  +++ [ "    }";
        "  ]";
        "}" ].

Definition generateWezTermLua (_ : Ambient) (skin : SkinConfig) : completion string :=
  validated skin wezterm_lines.

Definition generateAlacrittyYaml (_ : Ambient) (skin : SkinConfig) : completion string :=
  validated skin alacritty_lines.

Definition generateKittyConfig (_ : Ambient) (skin : SkinConfig) : completion string :=
  validated skin kitty_lines.

Definition generateWindowsTerminalJson (_ : Ambient) (skin : SkinConfig) : completion string :=
  validated skin windows_terminal_lines.

(** Modelled from the spec: the generic operation [render(skin)] of an
    adapter (section 4.2), instantiated four times. *)
Definition render (A : Target) : Ambient -> SkinConfig -> completion string :=
  match A with
  | WezTerm => generateWezTermLua
  | Alacritty => generateAlacrittyYaml
  | Kitty => generateKittyConfig
  | WindowsTerminal => generateWindowsTerminalJson
  end.

End Render.

End Adapters.

(* ================================================================= *)
(** ** Reading a generated document *)

Module Text.

(** [String.prototype.includes]: [needle] occurs in [hay]. *)
Fixpoint contains (needle hay : string) : bool :=
  String.prefix needle hay ||
  match hay with
  | EmptyString => false
  | String _ rest => contains needle rest
  end.

(** The lines of a document, split at the newline character. *)
Fixpoint split_lines (s : string) : list string :=
  match s with
  | EmptyString => [EmptyString]
  | String c rest =>
      if Ascii.eqb c (ascii_of_nat 10) then EmptyString :: split_lines rest
      else match split_lines rest with
           | l :: ls => String c l :: ls
           | [] => [String c EmptyString]
           end
  end.

(** The number of leading spaces of a line, and the line without them. *)
Fixpoint indent (s : string) : nat :=
  match s with
  | String c rest => if Ascii.eqb c " " then S (indent rest) else O
  | EmptyString => O
  end.

Fixpoint trim_left (s : string) : string :=
  match s with
  | String c rest => if Ascii.eqb c " " then trim_left rest else s
  | EmptyString => EmptyString
  end.

Fixpoint take_while {A : Type} (p : A -> bool) (l : list A) : list A :=
  match l with
  | [] => []
  | a :: rest => if p a then a :: take_while p rest else []
  end.

(** The lines that follow the first line satisfying [p]. *)
Fixpoint after_first (p : string -> bool) (ls : list string) : option (list string) :=
  match ls with
  | [] => None
  | l :: rest => if p l then Some rest else after_first p rest
  end.

(** The block of a YAML-like mapping key: the lines under the line
    [header] that are indented deeper than it. *)
Definition yaml_block (header : string) (ls : list string) : option (list string) :=
  match after_first (String.eqb header) ls with
  | Some rest => Some (take_while (fun l => (indent header <? indent l)%nat) rest)
  | None => None
  end.

(** The entries of the Lua table opened by the line [key = {]: the lines
    up to the closing brace. *)
Definition lua_table (key : string) (ls : list string) : option (list string) :=
  match after_first (fun l => String.eqb (trim_left l) (key ++ " = {")) ls with
  | Some rest => Some (take_while (fun l => negb (String.prefix "}" (trim_left l))) rest)
  | None => None
  end.

End Text.

(* ================================================================= *)
(** ** A concrete process, for the worked examples *)

Module Node.

Import Js Skins Process Adapters.

(** The case mappings on a string of ASCII characters, where they agree
    with [String.prototype.toLowerCase] and [toUpperCase]; the examples
    apply them to such strings only. *)
Definition lower_char (c : ascii) : ascii :=
  let n := nat_of_ascii c in
  if ((65 <=? n) && (n <=? 90))%nat then ascii_of_nat (n + 32) else c.

Definition upper_char (c : ascii) : ascii :=
  let n := nat_of_ascii c in
  if ((97 <=? n) && (n <=? 122))%nat then ascii_of_nat (n - 32) else c.

Fixpoint map_chars (f : ascii -> ascii) (s : string) : string :=
  match s with
  | EmptyString => EmptyString
  | String c rest => String (f c) (map_chars f rest)
  end.

Definition toLowerCase : string -> string := map_chars lower_char.
Definition toUpperCase : string -> string := map_chars upper_char.

Definition cwd : string := "/home/user".

(** [path.join] of a directory and a plain file name. *)
Definition path_join (dir file : string) : string := dir ++ "/" ++ file.

(** A file system in which the home directory and [/tmp] take files. *)
Definition writable (path : string) : bool :=
  String.prefix "/home/user/" path || String.prefix "/tmp/" path.

Definition ambient : Ambient :=
  {| now := 0; random := fun _ => 0%Z; env := fun _ => None |}.

(** Modelled from the spec: one admissible instance of the derivation
    fallback (section 9: any fixed rule), a two-tone palette: the black
    slots take [background], every other slot takes [foreground]. *)
Definition two_tone (c : ColorScheme) : Palette :=
  let bg := background c in
  let fg := foreground c in
  {| black := bg; red := fg; green := fg; yellow := fg;
     blue := fg; purple := fg; cyan := fg; white := fg;
     brightBlack := bg; brightRed := fg; brightGreen := fg; brightYellow := fg;
     brightBlue := fg; brightPurple := fg; brightCyan := fg; brightWhite := fg |}.

Definition wezterm := Adapters.generateWezTermLua two_tone ambient.
Definition alacritty := Adapters.generateAlacrittyYaml two_tone ambient.
Definition kitty := Adapters.generateKittyConfig two_tone ambient.
Definition windows_terminal := Adapters.generateWindowsTerminalJson two_tone ambient.

(** The three actions in this process. *)
Definition preview :=
  Cli.preview toLowerCase toUpperCase wezterm alacritty kitty windows_terminal.
Definition generate :=
  Cli.generate toLowerCase toUpperCase cwd path_join writable
               wezterm alacritty kitty windows_terminal.
Definition apply :=
  Cli.apply toLowerCase cwd path_join writable wezterm alacritty kitty windows_terminal.

End Node.

(* ================================================================= *)
(** * Properties of the skin model *)

(** Forall over a literal list whose members are checked by evaluation. *)
Ltac forall_by tac := repeat (constructor; [ tac | ]); try constructor.

Module SkinFacts.

Import Js Skins Color.

Lemma or_string_default (d : string) :
  or_string None d = d /\ or_string (Some EmptyString) d = d.
Proof. split; reflexivity. Qed.

Lemma or_string_supplied (s d : string) : s <> EmptyString -> or_string (Some s) d = s.
Proof.
  intros Hs. unfold or_string.
  destruct (String.eqb_spec s EmptyString) as [E | _]; [contradiction | reflexivity].
Qed.

Lemma slot_names (p : Palette) :
  map fst (palette_slots p) =
  [ "black"; "red"; "green"; "yellow"; "blue"; "purple"; "cyan"; "white";
    "brightBlack"; "brightRed"; "brightGreen"; "brightYellow"; "brightBlue";
    "brightPurple"; "brightCyan"; "brightWhite" ].
Proof. reflexivity. Qed.

Lemma slot_names_distinct (p : Palette) : NoDup (map fst (palette_slots p)).
Proof.
  rewrite slot_names.
  repeat (constructor; [ simpl; intuition discriminate | ]).
  constructor.
Qed.

(** C9. For every partial input whose [name] is the empty string or
    absent (the falsy values of an optional string), [createSkin] returns
    the name ['Default']: a supplied empty name is not kept. *)
Theorem createSkin_falsy_name (config : PartialSkinConfig) :
  p_name config = Some EmptyString \/ p_name config = None ->
  name (createSkin config) = "Default" /\ name (createSkin config) <> EmptyString.
Proof.
  intros [H | H]; unfold createSkin; simpl; rewrite H; split;
    solve [ reflexivity | discriminate ].
Qed.

Lemma createSkin_falsy_name_witness :
  name (createSkin {| p_name := Some EmptyString; p_effects := None;
                      p_colors := None; p_performance := None |}) = "Default".
Proof.
  apply (createSkin_falsy_name
           {| p_name := Some EmptyString; p_effects := None;
              p_colors := None; p_performance := None |}).
  left; reflexivity.
Defined.

(** C4, as stated, fails: a supplied field is not always returned
    unchanged.  The empty string supplied as [name] comes back as
    ['Default']. *)
Lemma createSkin_supplied_name_changed :
  let config := {| p_name := Some EmptyString; p_effects := None;
                   p_colors := None; p_performance := None |} in
  p_name config = Some EmptyString /\
  Some (name (createSkin config)) <> p_name config.
Proof. split; [ reflexivity | discriminate ]. Qed.

(** C4, amended. [createSkin] is total (a function into [SkinConfig]): it
    rejects no partial input.  Each omitted field resolves to its default:
    name ['Default'], no effects, the green-phosphor colours without a
    palette, and GPU acceleration at 60 frames in high quality.  Every
    supplied field is returned unchanged, except that the empty string
    supplied as name is replaced by ['Default']. *)
Theorem createSkin_defaults
    (n : option string) (e : option (list VisualEffect))
    (c : option ColorScheme) (p : option PerformanceConfig) :
  let r := createSkin {| p_name := n; p_effects := e; p_colors := c; p_performance := p |} in
  (n = None -> name r = "Default") /\
  (n = Some EmptyString -> name r = "Default") /\
  (forall s, n = Some s -> s <> EmptyString -> name r = s) /\
  (e = None -> effects r = []) /\
  (forall l, e = Some l -> effects r = l) /\
  (c = None ->
   colors r = {| background := "#0D0208"; foreground := "#00FF41";
                 accent := "#008F11"; glow := "#00FF41"; palette := None |}) /\
  (forall cs, c = Some cs -> colors r = cs) /\
  (p = None ->
   performance r = {| gpuAcceleration := true; targetFps := 60%Q; quality := high |}) /\
  (forall pc, p = Some pc -> performance r = pc).
Proof.
  unfold createSkin; simpl.
  repeat split; intros; subst; simpl; try reflexivity.
  now apply or_string_supplied.
Qed.

Lemma createSkin_defaults_witness :
  let r := createSkin {| p_name := Some "My Custom Skin"; p_effects := None;
                         p_colors := None; p_performance := None |} in
  name r = "My Custom Skin" /\ effects r = [] /\
  foreground (colors r) = "#00FF41" /\ quality (performance r) = high.
Proof.
  pose proof (createSkin_defaults (Some "My Custom Skin") None None None)
    as (_ & _ & Hname & Heffects & _ & Hcolors & _ & Hperf & _).
  cbv zeta in *.
  rewrite (Hname "My Custom Skin" eq_refl ltac:(discriminate)).
  rewrite (Heffects eq_refl), (Hcolors eq_refl), (Hperf eq_refl).
  repeat split.
Defined.

(** C3. The catalog has the six keys phosphor, amber, lcd, cyber,
    terminal and puncore, and the producer of each returns a skin with a
    non-empty effect sequence and a palette that is present, has exactly
    the sixteen named slots (eight base, eight bright, names distinct) and
    holds a [#RRGGBB] value in every slot; the four scheme colours match
    the pattern too. *)
Theorem preset_catalog_complete :
  keys PRESET_SKINS = preset_keys /\
  Forall (fun key =>
            exists skinFn p,
              get PRESET_SKINS key = Own skinFn /\
              effects (skinFn tt) <> [] /\
              palette (colors (skinFn tt)) = Some p /\
              List.length (palette_slots p) = 16%nat /\
              NoDup (map fst (palette_slots p)) /\
              Forall (fun slot => is_hex_color (snd slot) = true) (palette_slots p) /\
              Forall (fun c => is_hex_color c = true)
                     [ background (colors (skinFn tt)); foreground (colors (skinFn tt));
                       accent (colors (skinFn tt)); glow (colors (skinFn tt)) ])
         preset_keys.
Proof.
  split; [ reflexivity | ].
  unfold preset_keys.
  forall_by ltac:(
    eexists; eexists;
    split; [ reflexivity | ];
    split; [ simpl; discriminate | ];
    split; [ reflexivity | ];
    split; [ reflexivity | ];
    split; [ apply slot_names_distinct | ];
    split; forall_by ltac:(reflexivity)).
Qed.

(** C8. Every effect of every preset skin has an intensity in the closed
    interval from 0 to 1, and each of its parameters holds a number. *)
Theorem preset_effects_in_range :
  Forall (fun entry =>
            Forall (fun effect =>
                      (0 <= intensity effect)%Q /\ (intensity effect <= 1)%Q /\
                      Forall (fun param => exists x : number, snd param = Some x)
                             (params effect))
                   (effects (snd entry tt)))
         PRESET_SKINS.
Proof.
  unfold PRESET_SKINS.
  forall_by ltac:(
    simpl;
    forall_by ltac:(
      split; [ unfold Qle; simpl; lia | ];
      split; [ unfold Qle; simpl; lia | ];
      forall_by ltac:(eexists; reflexivity))).
Qed.

End SkinFacts.

(* ================================================================= *)
(** * Properties of the adapters *)

Module AdapterFacts.

Import Js Skins Process Color Adapters Text.

Lemma is_hex_color_examples :
  is_hex_color "#00FF41" = true /\ is_hex_color "#b388ff" = true /\
  is_hex_color "#FFF" = false /\ is_hex_color "red" = false /\
  is_hex_color "#00FF41 " = false /\ is_hex_color "#00FG41" = false /\
  is_hex_color "00FF411" = false.
Proof. repeat split. Qed.

Section Validation.

Variable derive_palette : ColorScheme -> Palette.






(** C5. The WezTerm adapter on the phosphor preset returns a text that
    contains the foreground [#00FF41] and the background [#0D0208], whose
    [ansi] table has sixteen entries (the palette slots in order), and
    whose last line is [return config]. *)
Theorem phosphor_wezterm_scenario (w : Ambient) :
  exists skinFn text entries,
    get PRESET_SKINS "phosphor" = Own skinFn /\
    render derive_palette WezTerm w (skinFn tt) = Normal text /\
    foreground (colors (skinFn tt)) = "#00FF41" /\
    contains "#00FF41" text = true /\
    background (colors (skinFn tt)) = "#0D0208" /\
    contains "#0D0208" text = true /\
    lua_table "ansi" (split_lines text) = Some entries /\
    List.length entries = 16%nat /\
    map trim_left entries =
      map (fun c => "'" ++ c ++ "',") (ansi16 derive_palette (colors (skinFn tt))) /\
    last (split_lines text) EmptyString = "return config".
Proof.
  exists phosphor. eexists. eexists.
  split; [ reflexivity | ].
  split; [ reflexivity | ].
  repeat split; vm_compute; reflexivity.
Qed.

(** C6. The Alacritty adapter on the amber preset returns a text with a
    top-level [colors:] key, under it a [primary:] key whose block holds
    [background: '#1A0F00'], and a [bright:] key whose block has eight
    entries. *)
Theorem amber_alacritty_scenario (w : Ambient) :
  exists skinFn text colors_block primary bright,
    get PRESET_SKINS "amber" = Own skinFn /\
    render derive_palette Alacritty w (skinFn tt) = Normal text /\
    yaml_block "colors:" (split_lines text) = Some colors_block /\
    indent "colors:" = 0%nat /\
    In "  primary:" colors_block /\
    In "  bright:" colors_block /\
    yaml_block "  primary:" (split_lines text) = Some primary /\
    In "    background: '#1A0F00'" primary /\
    yaml_block "  bright:" (split_lines text) = Some bright /\
    List.length bright = 8%nat.
Proof.
  exists amber. eexists. eexists. eexists. eexists.
  split; [ reflexivity | ].
  split; [ reflexivity | ].
  split; [ vm_compute; reflexivity | ].
  split; [ reflexivity | ].
  split; [ simpl; tauto | ].
  split; [ simpl; tauto | ].
  split; [ vm_compute; reflexivity | ].
  split; [ simpl; tauto | ].
  split; vm_compute; reflexivity.
Qed.

End Validation.


End AdapterFacts.

(* ================================================================= *)
(** * Properties of the command-line dispatch *)

Module CliFacts.

Import Js Skins Process Text.
Import Cli.

Lemma contains_unknown_skin (s : string) :
  contains "Unknown skin" ("❌ Unknown skin: " ++ s) = true.
Proof. reflexivity. Qed.

Lemma contains_invalid_terminal (s : string) :
  contains "Invalid terminal" ("❌ Invalid terminal: " ++ s) = true.
Proof. reflexivity. Qed.

Lemma messages_distinct (terminal skinName : string) :
  "❌ Invalid terminal: " ++ terminal <> "❌ Unknown skin: " ++ skinName.
Proof. simpl. intros H. discriminate H. Qed.

Lemma unlisted_key_undefined (key : string) :
  ~ In key preset_keys -> ~ In key Object_prototype_keys ->
  get PRESET_SKINS key = Undefined.
Proof.
  intros Hown Hproto. unfold get.
  destruct (own_property PRESET_SKINS key) as [f |] eqn:Hf.
  - exfalso. apply Hown. unfold PRESET_SKINS, preset_keys in *.
    cbn [own_property] in Hf.
    repeat match type of Hf with
           | context [String.eqb ?k key] =>
               destruct (String.eqb_spec k key); [ simpl; tauto | ]
           end.
    discriminate.
  - destruct (includes Object_prototype_keys key) eqn:Hi; [ | reflexivity ].
    exfalso. apply Hproto. unfold includes in Hi.
    apply existsb_exists in Hi as (k & Hin & Heq).
    apply String.eqb_eq in Heq. subst k. exact Hin.
Qed.

Lemma lookup_missing (skinName : string) :
  get PRESET_SKINS skinName = Undefined -> lookup_skin skinName = Missing.
Proof. unfold lookup_skin. intros ->. reflexivity. Qed.

Lemma lookup_producer (skinName : string) (skinFn : unit -> SkinConfig) :
  get PRESET_SKINS skinName = Own skinFn -> lookup_skin skinName = Producer skinFn.
Proof. unfold lookup_skin. intros ->. reflexivity. Qed.

Lemma own_key_not_empty (skinName : string) (skinFn : unit -> SkinConfig) :
  get PRESET_SKINS skinName = Own skinFn -> skinName <> EmptyString.
Proof. intros H ->. vm_compute in H. discriminate. Qed.

Lemma truthy_supplied (s : string) : s <> EmptyString -> truthy (Some s) = true.
Proof.
  intros Hs. unfold truthy.
  destruct (String.eqb_spec s EmptyString); [ contradiction | reflexivity ].
Qed.

Ltac run_action :=
  unfold run, exit_code, unknown_skin, invalid_terminal, bind, console_log,
    console_error, writeFileSync, process_exit, throw, call, ret;
  simpl.

Section Dispatch.

Variable toLowerCase : string -> string.
Variable toUpperCase : string -> string.
Variable cwd : string.
Variable path_join : string -> string -> string.
Variable writable : string -> bool.
Variable generateWezTermLua : SkinConfig -> completion string.
Variable generateAlacrittyYaml : SkinConfig -> completion string.
Variable generateKittyConfig : SkinConfig -> completion string.
Variable generateWindowsTerminalJson : SkinConfig -> completion string.

Local Abbreviation preview :=
  (Cli.preview toLowerCase toUpperCase generateWezTermLua generateAlacrittyYaml
               generateKittyConfig generateWindowsTerminalJson).
Local Abbreviation generate :=
  (Cli.generate toLowerCase toUpperCase cwd path_join writable generateWezTermLua
                generateAlacrittyYaml generateKittyConfig generateWindowsTerminalJson).
Local Abbreviation apply_skin :=
  (Cli.apply toLowerCase cwd path_join writable generateWezTermLua generateAlacrittyYaml
             generateKittyConfig generateWindowsTerminalJson).
Local Abbreviation select_adapter :=
  (Cli.select_adapter generateWezTermLua generateAlacrittyYaml
                      generateKittyConfig generateWindowsTerminalJson).

Lemma select_adapter_fallthrough (terminal : string) :
  terminal <> "wezterm" -> terminal <> "alacritty" -> terminal <> "windows-terminal" ->
  select_adapter terminal = generateKittyConfig.
Proof.
  intros H1 H2 H3. unfold Cli.select_adapter.
  apply String.eqb_neq in H1, H2, H3. rewrite H1, H2, H3. reflexivity.
Qed.

Lemma generate_invalid_terminal (terminal skinName : string) (options : GenerateOptions) :
  includes VALID_TERMINALS (toLowerCase terminal) = false ->
  run (generate terminal skinName options) =
  {| output := {| stdout := [ "   Valid options: wezterm, alacritty, kitty, windows-terminal" ];
                  stderr := [ "❌ Invalid terminal: " ++ terminal ];
                  files := [] |};
     ending := Exited 1 |}.
Proof. intros H. unfold Cli.generate. rewrite H. reflexivity. Qed.

Lemma apply_invalid_terminal (terminal answer : string) (options : GenerateOptions) :
  includes VALID_TERMINALS (toLowerCase terminal) = false ->
  run (apply_skin terminal options answer) =
  {| output := {| stdout := [ "   Valid options: wezterm, alacritty, kitty, windows-terminal" ];
                  stderr := [ "❌ Invalid terminal: " ++ terminal ];
                  files := [] |};
     ending := Exited 1 |}.
Proof. intros H. unfold Cli.apply. rewrite H. reflexivity. Qed.

Lemma generate_unknown_skin (terminal skinName : string) (options : GenerateOptions) :
  includes VALID_TERMINALS (toLowerCase terminal) = true ->
  get PRESET_SKINS skinName = Undefined ->
  run (generate terminal skinName options) =
  {| output := {| stdout := [ "   Available: phosphor, amber, lcd, cyber, terminal, puncore" ];
                  stderr := [ "❌ Unknown skin: " ++ skinName ];
                  files := [] |};
     ending := Exited 1 |}.
Proof.
  intros Hvalid Hget. unfold Cli.generate.
  rewrite Hvalid, (lookup_missing _ Hget). reflexivity.
Qed.

Lemma preview_unknown_skin (skinName : string) (options : PreviewOptions) :
  skinName <> EmptyString ->
  get PRESET_SKINS skinName = Undefined ->
  run (preview (Some skinName) options) =
  {| output := {| stdout := [ "   Available: phosphor, amber, lcd, cyber, terminal, puncore" ];
                  stderr := [ "❌ Unknown skin: " ++ skinName ];
                  files := [] |};
     ending := Exited 1 |}.
Proof.
  intros Hne Hget. unfold Cli.preview, Cli.preview_skin.
  rewrite (truthy_supplied _ Hne), (SkinFacts.or_string_supplied _ _ Hne).
  rewrite (lookup_missing _ Hget). reflexivity.
Qed.

Lemma generate_adapter_throws
    (terminal skinName : string) (skinFn : unit -> SkinConfig)
    (options : GenerateOptions) (e : exception) :
  includes VALID_TERMINALS (toLowerCase terminal) = true ->
  get PRESET_SKINS skinName = Own skinFn ->
  select_adapter (toLowerCase terminal) (skinFn tt) = Throw e ->
  run (generate terminal skinName options) =
  {| output := no_output; ending := Crashed e |}.
Proof.
  intros Hvalid Hget Hthrow. unfold Cli.generate.
  rewrite Hvalid, (lookup_producer _ _ Hget).
  run_action. rewrite Hthrow. reflexivity.
Qed.

(** C7, amended.  [generate] and [apply] answer a target whose lower-case
    form is not one of the four valid terminals with exit code 1 and the
    error text [Invalid terminal], whatever the preset key is.  [generate]
    with a valid target, and [preview], answer a (non-empty) preset key
    that names no property of the catalog with exit code 1 and the error
    text [Unknown skin].  The two messages differ for all inputs.  A
    colour-format error thrown by the selected adapter is not caught: the
    process ends on it with exit code 1 and prints neither message. *)
Theorem unknown_key_errors :
  (forall terminal skinName options,
     includes VALID_TERMINALS (toLowerCase terminal) = false ->
     let r := run (generate terminal skinName options) in
     exit_code r = 1%Z /\
     stderr (output r) = [ "❌ Invalid terminal: " ++ terminal ] /\
     existsb (contains "Invalid terminal") (stderr (output r)) = true) /\
  (forall terminal options answer,
     includes VALID_TERMINALS (toLowerCase terminal) = false ->
     let r := run (apply_skin terminal options answer) in
     exit_code r = 1%Z /\
     stderr (output r) = [ "❌ Invalid terminal: " ++ terminal ] /\
     existsb (contains "Invalid terminal") (stderr (output r)) = true) /\
  (forall terminal skinName options,
     includes VALID_TERMINALS (toLowerCase terminal) = true ->
     get PRESET_SKINS skinName = Undefined ->
     let r := run (generate terminal skinName options) in
     exit_code r = 1%Z /\
     stderr (output r) = [ "❌ Unknown skin: " ++ skinName ] /\
     existsb (contains "Unknown skin") (stderr (output r)) = true) /\
  (forall skinName options,
     skinName <> EmptyString ->
     get PRESET_SKINS skinName = Undefined ->
     let r := run (preview (Some skinName) options) in
     exit_code r = 1%Z /\
     stderr (output r) = [ "❌ Unknown skin: " ++ skinName ] /\
     existsb (contains "Unknown skin") (stderr (output r)) = true) /\
  (forall terminal skinName,
     "❌ Invalid terminal: " ++ terminal <> "❌ Unknown skin: " ++ skinName) /\
  (forall terminal skinName skinFn options e,
     includes VALID_TERMINALS (toLowerCase terminal) = true ->
     get PRESET_SKINS skinName = Own skinFn ->
     select_adapter (toLowerCase terminal) (skinFn tt) = Throw e ->
     let r := run (generate terminal skinName options) in
     ending r = Crashed e /\ exit_code r = 1%Z /\ stderr (output r) = []).
Proof.
  split; [ | split; [ | split; [ | split; [ | split ] ] ] ].
  - intros terminal skinName options H r. subst r.
    rewrite (generate_invalid_terminal _ skinName options H).
    repeat split.
  - intros terminal options answer H r. subst r.
    rewrite (apply_invalid_terminal _ answer options H).
    repeat split.
  - intros terminal skinName options Hv Hg r. subst r.
    rewrite (generate_unknown_skin _ _ options Hv Hg).
    repeat split.
  - intros skinName options Hne Hg r. subst r.
    rewrite (preview_unknown_skin _ options Hne Hg).
    repeat split.
  - apply messages_distinct.
  - intros terminal skinName skinFn options e Hv Hg Ht r. subst r.
    rewrite (generate_adapter_throws _ _ _ options _ Hv Hg Ht).
    repeat split.
Qed.

(** The summary [preview <skin>] prints before the terminal part. *)
Lemma preview_listed_skin
    (skinName given : string) (skinFn : unit -> SkinConfig) (dry : bool) :
  get PRESET_SKINS skinName = Own skinFn ->
  given <> EmptyString ->
  exists summary,
    run (preview (Some skinName)
                 {| preview_terminal := Some given; preview_dryRun := dry |}) =
    match select_adapter (toLowerCase given) (skinFn tt) with
    | Normal config =>
        {| output :=
             {| stdout := List.app summary
                           [ nl ++ "📄 " ++ toUpperCase given ++ " Preview:";
                             repeat "─" 40; config; EmptyString ];
                stderr := []; files := [] |};
           ending := Exited 0 |}
    | Throw e =>
        {| output :=
             {| stdout := List.app summary
                           [ nl ++ "📄 " ++ toUpperCase given ++ " Preview:";
                             repeat "─" 40 ];
                stderr := []; files := [] |};
           ending := Crashed e |}
    end.
Proof.
  intros Hget Hgiven.
  pose proof (own_key_not_empty _ _ Hget) as Hne.
  unfold Cli.preview, Cli.preview_skin.
  rewrite (truthy_supplied _ Hne), (SkinFacts.or_string_supplied _ _ Hne).
  rewrite (lookup_producer _ _ Hget).
  cbv zeta.
  change (truthy (preview_terminal {| preview_terminal := Some given; preview_dryRun := dry |}))
    with (truthy (Some given)).
  change (or_string (preview_terminal {| preview_terminal := Some given; preview_dryRun := dry |}) "")
    with (or_string (Some given) "").
  rewrite (truthy_supplied _ Hgiven), (SkinFacts.or_string_supplied _ _ Hgiven).
  exists [ nl ++ "🎨 " ++ name (skinFn tt) ++ " (" ++ skinName ++ ")";
           "   Colors:";
           "     Background: " ++ background (colors (skinFn tt));
           "     Foreground: " ++ foreground (colors (skinFn tt));
           "     Accent:     " ++ accent (colors (skinFn tt));
           "     Glow:       " ++ glow (colors (skinFn tt));
           "   Effects: " ++
           join ", " (map (fun e => EffectType_string (type e)) (effects (skinFn tt))) ].
  destruct (select_adapter (toLowerCase given) (skinFn tt)) as [config | e];
    run_action; reflexivity.
Qed.

(** C10, amended.  For every preset skin and every non-empty [--terminal]
    value whose lower-case form is none of [wezterm], [alacritty] and
    [windows-terminal], [preview] does not reject the target: nothing goes
    to standard error, the Kitty adapter is the one called on that skin,
    and its output is printed after the summary and the header, with exit
    code 0.  (Were that adapter to throw, the process would end on its
    error; no 'Invalid terminal' message is printed either way.) *)
Theorem preview_unlisted_terminal_uses_kitty
    (skinName given : string) (skinFn : unit -> SkinConfig) (dry : bool) :
  get PRESET_SKINS skinName = Own skinFn ->
  given <> EmptyString ->
  toLowerCase given <> "wezterm" ->
  toLowerCase given <> "alacritty" ->
  toLowerCase given <> "windows-terminal" ->
  let r := run (preview (Some skinName)
                        {| preview_terminal := Some given; preview_dryRun := dry |}) in
  stderr (output r) = [] /\
  match generateKittyConfig (skinFn tt) with
  | Normal config =>
      exit_code r = 0%Z /\
      exists summary,
        stdout (output r) =
        List.app summary [ nl ++ "📄 " ++ toUpperCase given ++ " Preview:";
                           repeat "─" 40; config; EmptyString ]
  | Throw e => ending r = Crashed e
  end.
Proof.
  intros Hget Hgiven H1 H2 H3 r. subst r.
  destruct (preview_listed_skin skinName given skinFn dry Hget Hgiven) as [summary ->].
  rewrite (select_adapter_fallthrough _ H1 H2 H3).
  destruct (generateKittyConfig (skinFn tt)) as [config | e]; simpl.
  - split; [ reflexivity | ]. split; [ reflexivity | ]. exists summary. reflexivity.
  - split; reflexivity.
Qed.

End Dispatch.

Lemma unknown_key_errors_witness :
  stderr (output (run (Node.generate "xterm" "phosphor"
                         {| output_file := None; dryRun := false |}))) =
    [ "❌ Invalid terminal: xterm" ] /\
  stderr (output (run (Node.apply "xterm" {| output_file := None; dryRun := false |}
                         "phosphor"))) =
    [ "❌ Invalid terminal: xterm" ] /\
  stderr (output (run (Node.generate "kitty" "matrix"
                         {| output_file := None; dryRun := false |}))) =
    [ "❌ Unknown skin: matrix" ] /\
  exit_code (run (Node.preview (Some "matrix")
                    {| preview_terminal := None; preview_dryRun := false |})) = 1%Z /\
  ending (run (Cli.generate Node.toLowerCase Node.toUpperCase Node.cwd Node.path_join
                 Node.writable Node.wezterm Node.alacritty
                 (fun _ => Throw (MalformedColorError "red")) Node.windows_terminal
                 "kitty" "phosphor" {| output_file := None; dryRun := false |})) =
    Crashed (MalformedColorError "red").
Proof.
  pose proof (unknown_key_errors Node.toLowerCase Node.toUpperCase Node.cwd Node.path_join
                Node.writable Node.wezterm Node.alacritty Node.kitty Node.windows_terminal)
    as (Hgen & Happly & Hskin & Hpreview & _ & _).
  pose proof (unknown_key_errors Node.toLowerCase Node.toUpperCase Node.cwd Node.path_join
                Node.writable Node.wezterm Node.alacritty
                (fun _ => Throw (MalformedColorError "red")) Node.windows_terminal)
    as (_ & _ & _ & _ & _ & Hthrow).
  split; [ | split; [ | split; [ | split ] ] ].
  - apply (Hgen "xterm" "phosphor"). reflexivity.
  - apply (Happly "xterm" _ "phosphor"). reflexivity.
  - apply (Hskin "kitty" "matrix"); reflexivity.
  - apply (Hpreview "matrix"); [ discriminate | reflexivity ].
  - apply (Hthrow "kitty" "phosphor" phosphor); reflexivity.
Defined.

(** C7, as stated, fails at two invocations.  [generate bogus nosuch]
    supplies an unknown preset key, yet the error text is the one of the
    target check, which comes first and ends the process.  [preview
    phosphor --terminal bogus] supplies an unknown target key, yet the
    process ends with exit code 0 and an empty standard error. *)
Lemma unknown_keys_not_always_reported :
  (get PRESET_SKINS "nosuch" = Undefined /\
   let r := run (Node.generate "bogus" "nosuch"
                   {| output_file := None; dryRun := false |}) in
   exit_code r = 1%Z /\
   stderr (output r) = [ "❌ Invalid terminal: bogus" ] /\
   existsb (contains "Unknown skin") (stderr (output r)) = false) /\
  (includes VALID_TERMINALS (Node.toLowerCase "bogus") = false /\
   let r := run (Node.preview (Some "phosphor")
                   {| preview_terminal := Some "bogus"; preview_dryRun := false |}) in
   exit_code r = 0%Z /\
   stderr (output r) = []).
Proof. vm_compute. repeat split. Qed.

Lemma preview_unlisted_terminal_uses_kitty_witness :
  let r := run (Node.preview (Some "phosphor")
                  {| preview_terminal := Some "Xterm"; preview_dryRun := false |}) in
  exists config,
    Node.kitty (phosphor tt) = Normal config /\
    stderr (output r) = [] /\
    exit_code r = 0%Z /\
    In config (stdout (output r)).
Proof.
  pose proof (preview_unlisted_terminal_uses_kitty
                Node.toLowerCase Node.toUpperCase
                Node.wezterm Node.alacritty Node.kitty Node.windows_terminal
                "phosphor" "Xterm" phosphor false eq_refl
                ltac:(discriminate) ltac:(discriminate) ltac:(discriminate)
                ltac:(discriminate)) as H.
  cbv zeta in H. destruct H as [Herr Hkitty].
  destruct (Node.kitty (phosphor tt)) as [config | e] eqn:Hk; [ | discriminate Hk ].
  destruct Hkitty as (Hexit & summary & Hout).
  exists config. cbv zeta.
  split; [ reflexivity | ].
  split; [ exact Herr | ].
  split; [ exact Hexit | ].
  unfold Node.preview. rewrite Hout.
  apply in_or_app. right. simpl. tauto.
Defined.

(** C10, as stated, fails for the empty option value.  The lower-case
    form of the empty string is none of the three names, yet [preview
    phosphor --terminal ''] prints the summary alone: the guard [if
    (options.terminal)] takes the empty string for an absent option, and
    the text of the Kitty adapter is not printed. *)
Lemma preview_empty_terminal_prints_no_config :
  let r := run (Node.preview (Some "phosphor")
                  {| preview_terminal := Some EmptyString; preview_dryRun := false |}) in
  Node.toLowerCase EmptyString = EmptyString /\
  List.length (stdout (output r)) = 8%nat /\
  last (stdout (output r)) "none" = EmptyString /\
  exists config,
    Node.kitty (phosphor tt) = Normal config /\
    existsb (String.eqb config) (stdout (output r)) = false.
Proof.
  cbv zeta.
  split; [ reflexivity | ].
  split; [ reflexivity | ].
  split; [ reflexivity | ].
  eexists. split; [ reflexivity | vm_compute; reflexivity ].
Qed.

End CliFacts.

(* ================================================================= *)
(** * Further properties of the skin model *)

Module SkinModel.

Import Js Skins.

Lemma createSkin_keeps_named (skin : SkinConfig) :
  name skin <> EmptyString -> createSkin (as_partial skin) = skin.
Proof.
  intros Hname. destruct skin as [n e c p]. unfold createSkin, as_partial.
  cbn [p_name p_effects p_colors p_performance name or_object] in *.
  rewrite (SkinFacts.or_string_supplied _ _ Hname). reflexivity.
Qed.

Lemma createSkin_named (config : PartialSkinConfig) :
  name (createSkin config) <> EmptyString.
Proof.
  unfold createSkin, or_string; simpl.
  destruct (p_name config) as [s |]; [ | discriminate ].
  destruct (String.eqb_spec s EmptyString); [ discriminate | assumption ].
Qed.

(** X1. Whatever the partial input, the skin [createSkin] returns has a
    non-empty name. *)
Theorem createSkin_name_not_empty (config : PartialSkinConfig) :
  name (createSkin config) <> EmptyString.
Proof.
  unfold createSkin, or_string; simpl.
  destruct (p_name config) as [supplied |].
  - destruct (String.eqb_spec supplied EmptyString) as [_ | Hne].
    + discriminate.
    + exact Hne.
  - discriminate.
Qed.

(** X2. A complete skin whose name is not empty passes through
    [createSkin] unchanged. *)
Theorem createSkin_complete_unchanged (skin : SkinConfig) :
  name skin <> EmptyString -> createSkin (as_partial skin) = skin.
Proof.
  intros Hname. destruct skin as [n e c p]. unfold createSkin, as_partial.
  cbn [p_name p_effects p_colors p_performance name or_object] in *.
  unfold or_string.
  destruct (String.eqb_spec n EmptyString) as [Hempty | _].
  - contradiction.
  - reflexivity.
Qed.

Lemma createSkin_complete_unchanged_witness :
  createSkin (as_partial (cyber tt)) = cyber tt.
Proof. apply (createSkin_complete_unchanged (cyber tt)). discriminate. Defined.

(** X3. [createSkin] is idempotent: applied to its own result it changes
    nothing, whatever the partial input was. *)
Theorem createSkin_idempotent (config : PartialSkinConfig) :
  createSkin (as_partial (createSkin config)) = createSkin config.
Proof. apply createSkin_keeps_named, createSkin_named. Qed.

(** X4. The keys of the catalog are pairwise distinct, none of them is a
    name inherited from [Object.prototype], and looking a key up gives
    the producer written next to it. *)
Theorem catalog_lookup_round_trip :
  NoDup (keys PRESET_SKINS) /\
  Forall (fun key => includes Object_prototype_keys key = false) (keys PRESET_SKINS) /\
  Forall (fun entry => get PRESET_SKINS (fst entry) = Own (snd entry)) PRESET_SKINS.
Proof.
  split; [ | split ].
  - unfold keys, PRESET_SKINS; simpl.
    repeat (constructor; [ simpl; intuition discriminate | ]). constructor.
  - forall_by ltac:(reflexivity).
  - forall_by ltac:(reflexivity).
Qed.

End SkinModel.

(* ================================================================= *)
(** * Further properties of the command-line dispatch *)

Module CliRuns.

Import Js Skins Process Text.
Import Cli.

Ltac unfold_run :=
  unfold run, exit_code, unknown_skin, invalid_terminal, bind, console_log,
    console_error, writeFileSync, process_exit, throw, call, ret;
  simpl.

(** Membership in a literal list, found by trying each position. *)
Ltac in_literal_list := repeat (first [ left; reflexivity | right ]); fail.

Lemma not_a_producer_inherited (skinName : string) (returns : bool) :
  lookup_skin skinName = NotAProducer returns -> In skinName Object_prototype_keys.
Proof.
  unfold lookup_skin, get.
  destruct (own_property PRESET_SKINS skinName); [ discriminate | ].
  destruct (includes Object_prototype_keys skinName) eqn:Hi; [ | discriminate ].
  intros _. unfold includes in Hi.
  apply existsb_exists in Hi as (key & Hin & Heq).
  apply String.eqb_eq in Heq. subst key. exact Hin.
Qed.

Section Dispatch.

Variable toLowerCase : string -> string.
Variable toUpperCase : string -> string.
Variable cwd : string.
Variable path_join : string -> string -> string.
Variable writable : string -> bool.
Variable generateWezTermLua : SkinConfig -> completion string.
Variable generateAlacrittyYaml : SkinConfig -> completion string.
Variable generateKittyConfig : SkinConfig -> completion string.
Variable generateWindowsTerminalJson : SkinConfig -> completion string.

Local Abbreviation preview :=
  (Cli.preview toLowerCase toUpperCase generateWezTermLua generateAlacrittyYaml
               generateKittyConfig generateWindowsTerminalJson).
Local Abbreviation generate :=
  (Cli.generate toLowerCase toUpperCase cwd path_join writable generateWezTermLua
                generateAlacrittyYaml generateKittyConfig generateWindowsTerminalJson).
Local Abbreviation apply_skin :=
  (Cli.apply toLowerCase cwd path_join writable generateWezTermLua generateAlacrittyYaml
             generateKittyConfig generateWindowsTerminalJson).
Local Abbreviation select_adapter :=
  (Cli.select_adapter generateWezTermLua generateAlacrittyYaml
                      generateKittyConfig generateWindowsTerminalJson).

(** Every run of [generate], by the order of its guards. *)
Lemma generate_run (terminal skinName : string) (options : GenerateOptions) :
  run (generate terminal skinName options) =
  if includes VALID_TERMINALS (toLowerCase terminal) then
    match lookup_skin skinName with
    | Missing =>
        {| output := {| stdout := [ "   Available: phosphor, amber, lcd, cyber, terminal, puncore" ];
                        stderr := [ "❌ Unknown skin: " ++ skinName ];
                        files := [] |};
           ending := Exited 1 |}
    | NotAProducer _ => {| output := no_output; ending := Crashed TypeError |}
    | Producer skinFn =>
        match select_adapter (toLowerCase terminal) (skinFn tt) with
        | Throw e => {| output := no_output; ending := Crashed e |}
        | Normal config =>
            if dryRun options then
              {| output :=
                   {| stdout := [ nl ++ "🔍 Dry Run - " ++ toUpperCase terminal ++
                                  " config for " ++ dq ++ name (skinFn tt) ++ dq ++ ":" ++ nl;
                                  config;
                                  nl ++ "✅ Would output to: " ++
                                  or_string (output_file options) "stdout" ];
                      stderr := []; files := [] |};
                 ending := Exited 0 |}
            else if truthy (output_file options) then
              let out := or_string (output_file options) "" in
              let outputPath := if startsWith out "/" then out else path_join cwd out in
              if writable outputPath then
                {| output :=
                     {| stdout := [ "✅ Config written to " ++ outputPath ];
                        stderr := [];
                        files := [ (outputPath, config) ] |};
                   ending := Exited 0 |}
              else {| output := no_output; ending := Crashed (SystemError outputPath) |}
            else
              {| output := {| stdout := [ config ]; stderr := []; files := [] |};
                 ending := Exited 0 |}
        end
    end
  else
    {| output := {| stdout := [ "   Valid options: wezterm, alacritty, kitty, windows-terminal" ];
                    stderr := [ "❌ Invalid terminal: " ++ terminal ];
                    files := [] |};
       ending := Exited 1 |}.
Proof.
  unfold Cli.generate.
  destruct (includes VALID_TERMINALS (toLowerCase terminal)); [ | reflexivity ].
  destruct (lookup_skin skinName) as [skinFn | returns |]; try reflexivity.
  unfold_run.
  destruct (select_adapter (toLowerCase terminal) (skinFn tt)) as [config | e];
    [ | reflexivity ].
  simpl.
  destruct (dryRun options); [ reflexivity | ].
  destruct (truthy (output_file options)); [ | reflexivity ].
  cbv zeta. unfold writeFileSync.
  destruct (writable (if startsWith (or_string (output_file options) "") "/"
                      then or_string (output_file options) ""
                      else path_join cwd (or_string (output_file options) "")));
    reflexivity.
Qed.

(** The comment [apply] puts before the text of the adapter. *)
Lemma apply_run (terminal answer : string) (options : GenerateOptions) :
  run (apply_skin terminal options answer) =
  if includes VALID_TERMINALS (toLowerCase terminal) then
    match lookup_skin answer with
    | Missing | NotAProducer _ => {| output := no_output; ending := Crashed TypeError |}
    | Producer skinFn =>
        match select_adapter (toLowerCase terminal) (skinFn tt) with
        | Throw e => {| output := no_output; ending := Crashed e |}
        | Normal config =>
            let header :=
              if String.eqb (toLowerCase terminal) "wezterm"
              then "// WezTerm config - copy to ~/.config/wezterm/retro_skin.lua"
              else if String.eqb (toLowerCase terminal) "alacritty"
              then "# Alacritty config - copy to ~/.config/alacritty/retro_skin.yml"
              else if String.eqb (toLowerCase terminal) "windows-terminal"
              then "// Windows Terminal config - add scheme to settings.json"
              else "# Kitty config - copy to ~/.config/kitty/retro_skin.conf" in
            if truthy (output_file options) then
              let outputPath := path_join cwd (or_string (output_file options) "") in
              if writable outputPath then
                {| output :=
                     {| stdout := [ "✅ Config written to " ++ outputPath ];
                        stderr := [];
                        files := [ (outputPath, header ++ nl ++ nl ++ config) ] |};
                   ending := Exited 0 |}
              else {| output := no_output; ending := Crashed (SystemError outputPath) |}
            else
              {| output :=
                   {| stdout := [ nl ++ "📄 Generated Config:" ++ nl;
                                  header ++ nl ++ nl ++ config ];
                      stderr := []; files := [] |};
                 ending := Exited 0 |}
        end
    end
  else
    {| output := {| stdout := [ "   Valid options: wezterm, alacritty, kitty, windows-terminal" ];
                    stderr := [ "❌ Invalid terminal: " ++ terminal ];
                    files := [] |};
       ending := Exited 1 |}.
Proof.
  unfold Cli.apply, Cli.select_adapter.
  destruct (includes VALID_TERMINALS (toLowerCase terminal)); [ | reflexivity ].
  destruct (lookup_skin answer) as [skinFn | returns |]; try reflexivity.
  destruct (String.eqb (toLowerCase terminal) "wezterm");
    [ destruct (generateWezTermLua (skinFn tt))
    | destruct (String.eqb (toLowerCase terminal) "alacritty");
      [ destruct (generateAlacrittyYaml (skinFn tt))
      | destruct (String.eqb (toLowerCase terminal) "windows-terminal");
        [ destruct (generateWindowsTerminalJson (skinFn tt))
        | destruct (generateKittyConfig (skinFn tt)) ] ] ].
  all: unfold_run; try reflexivity.
  all: destruct (truthy (output_file options)); [ | reflexivity ].
  all: cbv zeta; unfold writeFileSync.
  all: destruct (writable (path_join cwd (or_string (output_file options) "")));
    reflexivity.
Qed.


(** X5. Under the guard of [generate] and [apply], every valid terminal
    name selects the adapter of that name: the Kitty fallback at the end
    of the chain is reached by [kitty] alone. *)
Theorem valid_terminal_selects_its_adapter (terminalType : string) :
  includes VALID_TERMINALS terminalType = true ->
  (terminalType = "wezterm" /\ select_adapter terminalType = generateWezTermLua) \/
  (terminalType = "alacritty" /\ select_adapter terminalType = generateAlacrittyYaml) \/
  (terminalType = "kitty" /\ select_adapter terminalType = generateKittyConfig) \/
  (terminalType = "windows-terminal" /\
   select_adapter terminalType = generateWindowsTerminalJson).
Proof.
  unfold includes, VALID_TERMINALS; simpl. intros H.
  destruct (String.eqb_spec terminalType "wezterm") as [E | _];
    [ subst; left; now split | ].
  destruct (String.eqb_spec terminalType "alacritty") as [E | _];
    [ subst; right; left; now split | ].
  destruct (String.eqb_spec terminalType "kitty") as [E | _];
    [ subst; right; right; left; now split | ].
  destruct (String.eqb_spec terminalType "windows-terminal") as [E | _];
    [ subst; right; right; right; now split | ].
  discriminate H.
Qed.

(** X6. For a skin name that is not a name inherited from
    [Object.prototype], [generate] ends with exit code 0 exactly when the
    terminal is valid, the skin name is a key of the catalog, the selected
    adapter returns a text and, if the run writes a file (no dry run, a
    non-empty [--output]), the file system lets the write complete; in
    every other case the exit code is 1. *)
Theorem generate_exit_zero_iff (terminal skinName : string) (options : GenerateOptions) :
  ~ In skinName Object_prototype_keys ->
  let r := run (generate terminal skinName options) in
  (exit_code r = 0%Z <->
   exists skinFn config,
     includes VALID_TERMINALS (toLowerCase terminal) = true /\
     lookup_skin skinName = Producer skinFn /\
     select_adapter (toLowerCase terminal) (skinFn tt) = Normal config /\
     (dryRun options = true \/
      truthy (output_file options) = false \/
      writable (if startsWith (or_string (output_file options) "") "/"
                then or_string (output_file options) ""
                else path_join cwd (or_string (output_file options) "")) = true)) /\
  (exit_code r = 0%Z \/ exit_code r = 1%Z).
Proof.
  intros Hown. cbv zeta. rewrite generate_run.
  destruct (includes VALID_TERMINALS (toLowerCase terminal)).
  - destruct (lookup_skin skinName) as [skinFn | returns |] eqn:Hl.
    + destruct (select_adapter (toLowerCase terminal) (skinFn tt)) as [config | e] eqn:Ha.
      * destruct (dryRun options) eqn:Hdry.
        { split; [ split | left; reflexivity ].
          - intros _. exists skinFn, config. repeat split; auto.
          - intros _. reflexivity. }
        destruct (truthy (output_file options)) eqn:Hout.
        2:{ split; [ split | left; reflexivity ].
            - intros _. exists skinFn, config. repeat split; auto.
            - intros _. reflexivity. }
        cbv zeta.
        destruct (writable _) eqn:Hw.
        { split; [ split | left; reflexivity ].
          - intros _. exists skinFn, config. repeat split; auto.
          - intros _. reflexivity. }
        split; [ split | right; reflexivity ].
        -- discriminate.
        -- intros (f & c & _ & _ & _ & [H | [H | H]]); discriminate H.
      * split; [ split | right; reflexivity ].
        -- discriminate.
        -- intros (f & c & _ & Hf & Hc & _). injection Hf as <-.
           rewrite Ha in Hc. discriminate.
    + exfalso. apply Hown. exact (not_a_producer_inherited _ _ Hl).
    + split; [ split | right; reflexivity ].
      * discriminate.
      * intros (f & c & _ & Hf & _). discriminate.
  - split; [ split | right; reflexivity ].
    + discriminate.
    + intros (f & c & Hv & _). discriminate.
Qed.


(** When the terminal is valid, the skin is in the catalog, the adapter
    returns a text, the run is not a dry run, [--output] is not empty and
    the file system lets the write complete, [generate] does write the
    file. *)
Lemma generate_writes_requested_file
    (terminal skinName out : string) (skinFn : unit -> SkinConfig) (config : string) :
  includes VALID_TERMINALS (toLowerCase terminal) = true ->
  get PRESET_SKINS skinName = Own skinFn ->
  select_adapter (toLowerCase terminal) (skinFn tt) = Normal config ->
  out <> EmptyString ->
  writable (if startsWith out "/" then out else path_join cwd out) = true ->
  run (generate terminal skinName {| output_file := Some out; dryRun := false |}) =
  {| output :=
       {| stdout := [ "✅ Config written to " ++
                      if startsWith out "/" then out else path_join cwd out ];
          stderr := [];
          files := [ (if startsWith out "/" then out else path_join cwd out, config) ] |};
     ending := Exited 0 |}.
Proof.
  intros Hv Hget Ha Hout Hw.
  rewrite generate_run, Hv, (CliFacts.lookup_producer _ _ Hget), Ha.
  cbn [dryRun output_file].
  rewrite (CliFacts.truthy_supplied _ Hout), (SkinFacts.or_string_supplied _ _ Hout).
  cbv zeta. rewrite Hw. reflexivity.
Qed.

(** X8. A dry run of [generate] writes no file, even with [--output]: it
    prints a banner, the text of the adapter, and the destination it would
    have used ([stdout] when no [--output] is given). *)
Theorem generate_dry_run
    (terminal skinName : string) (skinFn : unit -> SkinConfig) (config : string)
    (out : option string) :
  includes VALID_TERMINALS (toLowerCase terminal) = true ->
  get PRESET_SKINS skinName = Own skinFn ->
  select_adapter (toLowerCase terminal) (skinFn tt) = Normal config ->
  let r := run (generate terminal skinName {| output_file := out; dryRun := true |}) in
  files (output r) = [] /\
  exit_code r = 0%Z /\
  stderr (output r) = [] /\
  exists banner,
    contains "Dry Run" banner = true /\
    stdout (output r) =
      [ banner; config; nl ++ "✅ Would output to: " ++ or_string out "stdout" ].
Proof.
  intros Hv Hget Ha r. subst r.
  rewrite generate_run, Hv, (CliFacts.lookup_producer _ _ Hget), Ha.
  cbn [dryRun output_file].
  repeat split. eexists. split; [ | reflexivity ]. reflexivity.
Qed.

(** X9. Outside a dry run, [generate] reads a valid terminal name through
    its lower-case form alone: two spellings with the same lower-case form
    give the same run. *)
Theorem generate_terminal_case_insensitive
    (terminal1 terminal2 skinName : string) (options : GenerateOptions) :
  toLowerCase terminal1 = toLowerCase terminal2 ->
  includes VALID_TERMINALS (toLowerCase terminal1) = true ->
  dryRun options = false ->
  run (generate terminal1 skinName options) = run (generate terminal2 skinName options).
Proof.
  intros Heq Hv Hdry.
  rewrite !generate_run. rewrite <- Heq, Hv, Hdry. reflexivity.
Qed.

(** X10. For a valid, non-empty terminal name and a skin of the catalog,
    the text [preview --terminal] shows is the very text [generate]
    prints. *)
Theorem preview_shows_generated_config
    (terminal skinName : string) (skinFn : unit -> SkinConfig) (config : string) :
  terminal <> EmptyString ->
  includes VALID_TERMINALS (toLowerCase terminal) = true ->
  get PRESET_SKINS skinName = Own skinFn ->
  stdout (output (run (generate terminal skinName
                         {| output_file := None; dryRun := false |}))) = [ config ] ->
  exists summary,
    stdout (output (run (preview (Some skinName)
                           {| preview_terminal := Some terminal;
                              preview_dryRun := false |}))) =
    List.app summary [ nl ++ "📄 " ++ toUpperCase terminal ++ " Preview:";
                       repeat "─" 40; config; EmptyString ].
Proof.
  intros Hne Hv Hget.
  rewrite generate_run, Hv, (CliFacts.lookup_producer _ _ Hget).
  destruct (CliFacts.preview_listed_skin toLowerCase toUpperCase
              generateWezTermLua generateAlacrittyYaml generateKittyConfig
              generateWindowsTerminalJson skinName terminal skinFn false Hget Hne)
    as [summary ->].
  destruct (select_adapter (toLowerCase terminal) (skinFn tt)) as [c | e]; simpl.
  - intros H. injection H as ->. exists summary. reflexivity.
  - discriminate.
Qed.

(** X11. [apply] prints what [generate] prints for the same terminal and
    skin, with the comment line of that terminal and an empty line before
    it. *)
Theorem apply_prepends_header
    (terminal answer : string) (skinFn : unit -> SkinConfig) (config : string) :
  includes VALID_TERMINALS (toLowerCase terminal) = true ->
  get PRESET_SKINS answer = Own skinFn ->
  stdout (output (run (generate terminal answer
                         {| output_file := None; dryRun := false |}))) = [ config ] ->
  exists header,
    run (apply_skin terminal {| output_file := None; dryRun := false |} answer) =
    {| output := {| stdout := [ nl ++ "📄 Generated Config:" ++ nl;
                                header ++ nl ++ nl ++ config ];
                    stderr := []; files := [] |};
       ending := Exited 0 |} /\
    ((toLowerCase terminal = "wezterm" /\
      header = "// WezTerm config - copy to ~/.config/wezterm/retro_skin.lua") \/
     (toLowerCase terminal = "alacritty" /\
      header = "# Alacritty config - copy to ~/.config/alacritty/retro_skin.yml") \/
     (toLowerCase terminal = "kitty" /\
      header = "# Kitty config - copy to ~/.config/kitty/retro_skin.conf") \/
     (toLowerCase terminal = "windows-terminal" /\
      header = "// Windows Terminal config - add scheme to settings.json")).
Proof.
  intros Hv Hget.
  rewrite generate_run, apply_run, Hv, (CliFacts.lookup_producer _ _ Hget).
  destruct (select_adapter (toLowerCase terminal) (skinFn tt)) as [c | e]; simpl;
    [ | discriminate ].
  intros H. injection H as ->.
  eexists. split; [ reflexivity | ].
  destruct (valid_terminal_selects_its_adapter _ Hv)
    as [[-> _] | [[-> _] | [[-> _] | [-> _]]]]; simpl; tauto.
Qed.

(** X12. With an [--output] path that starts with a slash, [generate]
    writes to that path as it is given, while [apply] writes to the path
    joined to the working directory: each run records its file there when
    the file system lets the write complete, and otherwise ends on the
    error of the write to that very path, with no file. *)
Theorem apply_joins_every_output_path
    (terminal answer out : string) (skinFn : unit -> SkinConfig) (config : string) :
  includes VALID_TERMINALS (toLowerCase terminal) = true ->
  get PRESET_SKINS answer = Own skinFn ->
  select_adapter (toLowerCase terminal) (skinFn tt) = Normal config ->
  startsWith out "/" = true ->
  let g := run (generate terminal answer {| output_file := Some out; dryRun := false |}) in
  let a := run (apply_skin terminal {| output_file := Some out; dryRun := false |} answer) in
  (if writable out
   then map fst (files (output g)) = [ out ] /\ ending g = Exited 0
   else files (output g) = [] /\ ending g = Crashed (SystemError out)) /\
  (if writable (path_join cwd out)
   then map fst (files (output a)) = [ path_join cwd out ] /\ ending a = Exited 0
   else files (output a) = [] /\ ending a = Crashed (SystemError (path_join cwd out))).
Proof.
  intros Hv Hget Ha Hslash g a. subst g a.
  assert (Hout : out <> EmptyString) by (intros ->; discriminate Hslash).
  rewrite generate_run, apply_run, Hv, (CliFacts.lookup_producer _ _ Hget), Ha.
  cbn [dryRun output_file].
  rewrite (CliFacts.truthy_supplied _ Hout), (SkinFacts.or_string_supplied _ _ Hout).
  cbv zeta. rewrite Hslash.
  destruct (writable out); destruct (writable (path_join cwd out)); repeat split.
Qed.

(** X13. A skin name inherited from [Object.prototype] ([constructor],
    [toString], [__proto__] and the like) passes the guard of [preview]:
    no 'Unknown skin' message is printed, and the process ends on an
    uncaught [TypeError]. *)
Theorem preview_inherited_name_crashes (skinName : string) (options : PreviewOptions) :
  In skinName Object_prototype_keys ->
  let r := run (preview (Some skinName) options) in
  ending r = Crashed TypeError /\
  exit_code r = 1%Z /\
  stderr (output r) = [] /\
  files (output r) = [].
Proof.
  unfold Object_prototype_keys. simpl. intros H.
  repeat (destruct H as [<- | H]; [ repeat split | ]).
  destruct H.
Qed.

(** X14. [preview] never writes a file, and the only [console.error] call
    it ever makes is the one of the 'Unknown skin' message, in a run that
    then leaves through [process.exit(1)]; every other run makes no
    [console.error] call at all.  (What Node itself prints for an uncaught
    exception is not a call of [preview].) *)
Theorem preview_never_writes (skinName : option string) (options : PreviewOptions) :
  let r := run (preview skinName options) in
  files (output r) = [] /\
  (stderr (output r) = [] \/
   ending r = Exited 1 /\
   stderr (output r) = [ "❌ Unknown skin: " ++ or_string skinName EmptyString ]).
Proof.
  cbv zeta. unfold Cli.preview.
  destruct (truthy skinName); [ | split; [ reflexivity | left; reflexivity ] ].
  unfold Cli.preview_skin.
  destruct (lookup_skin (or_string skinName "")) as [skinFn | [|] |].
  - destruct (truthy (preview_terminal options)).
    + cbv zeta.
      destruct (select_adapter (toLowerCase (or_string (preview_terminal options) ""))
                               (skinFn tt)) as [config | e];
        (split; [ reflexivity | left; reflexivity ]).
    + split; [ reflexivity | left; reflexivity ].
  - split; [ reflexivity | left; reflexivity ].
  - split; [ reflexivity | left; reflexivity ].
  - split; [ reflexivity | right; split; reflexivity ].
Qed.

(** X15. Without a skin name, or with the empty one, [preview] lists the
    whole catalog whatever its options are: one block per key with the
    display name and the number of effects, exit code 0, nothing on
    standard error. *)
Theorem preview_without_skin_lists_catalog (options options' : PreviewOptions) :
  run (preview (Some EmptyString) options) = run (preview None options') /\
  let r := run (preview None options) in
  exit_code r = 0%Z /\
  stderr (output r) = [] /\
  List.length (stdout (output r)) = (2 + 4 * List.length PRESET_SKINS)%nat /\
  Forall (fun entry =>
            In ("  " ++ fst entry ++ ":") (stdout (output r)) /\
            In ("    Name:      " ++ name (snd entry tt)) (stdout (output r)) /\
            In ("    Effects:   " ++
                string_of_nat (List.length (effects (snd entry tt))) ++ " active")
               (stdout (output r)))
         PRESET_SKINS.
Proof.
  split; [ vm_compute; reflexivity | ].
  cbv zeta.
  split; [ vm_compute; reflexivity | ].
  split; [ vm_compute; reflexivity | ].
  split; [ vm_compute; reflexivity | ].
  forall_by ltac:(vm_compute; repeat split; in_literal_list).
Qed.

End Dispatch.

Section TwoAdapterSets.

Variable toLowerCase : string -> string.
Variable toUpperCase : string -> string.
Variable wezterm1 alacritty1 kitty1 windows1 : SkinConfig -> completion string.
Variable wezterm2 alacritty2 kitty2 windows2 : SkinConfig -> completion string.

(** X16. Without [--terminal], or with the empty value, [preview] calls no
    adapter: the run is the same whatever the four adapters do. *)
Theorem preview_without_terminal_calls_no_adapter
    (skinName : option string) (options : PreviewOptions) :
  truthy (preview_terminal options) = false ->
  run (Cli.preview toLowerCase toUpperCase wezterm1 alacritty1 kitty1 windows1
                   skinName options) =
  run (Cli.preview toLowerCase toUpperCase wezterm2 alacritty2 kitty2 windows2
                   skinName options).
Proof.
  intros Hnone. unfold Cli.preview.
  destruct (truthy skinName); [ | reflexivity ].
  unfold Cli.preview_skin.
  destruct (lookup_skin (or_string skinName "")) as [skinFn | [|] |]; try reflexivity.
  rewrite Hnone. reflexivity.
Qed.

End TwoAdapterSets.

(** X17. [list] prints one line per key of the catalog, in the order of
    the catalog, between a heading and a hint: the key padded to ten
    characters, a space, and the display name, so that the names line up;
    it ends with exit code 0 and writes nothing else. *)
Theorem list_skins_lists_catalog :
  let r := run list_skins in
  exit_code r = 0%Z /\
  stderr (output r) = [] /\
  files (output r) = [] /\
  stdout (output r) =
    List.app
      ((nl ++ "🎨 Available Skins:" ++ nl)
       :: map (fun entry => "  • " ++ padEnd (fst entry) 10 ++ " " ++ name (snd entry tt))
              PRESET_SKINS)
      [ nl ++ "📝 Use: retro-skins preview <skin-name>"; EmptyString ] /\
  Forall (fun entry =>
            String.length (padEnd (fst entry) 10) = 10%nat /\
            String.prefix (fst entry) (padEnd (fst entry) 10) = true)
         PRESET_SKINS.
Proof.
  cbv zeta. repeat split.
  forall_by ltac:(split; reflexivity).
Qed.

Lemma valid_terminal_selects_its_adapter_witness :
  ("kitty" = "wezterm" /\
   Cli.select_adapter Node.wezterm Node.alacritty Node.kitty Node.windows_terminal "kitty"
   = Node.wezterm) \/
  ("kitty" = "alacritty" /\
   Cli.select_adapter Node.wezterm Node.alacritty Node.kitty Node.windows_terminal "kitty"
   = Node.alacritty) \/
  ("kitty" = "kitty" /\
   Cli.select_adapter Node.wezterm Node.alacritty Node.kitty Node.windows_terminal "kitty"
   = Node.kitty) \/
  ("kitty" = "windows-terminal" /\
   Cli.select_adapter Node.wezterm Node.alacritty Node.kitty Node.windows_terminal "kitty"
   = Node.windows_terminal).
Proof.
  exact (valid_terminal_selects_its_adapter
           Node.wezterm Node.alacritty Node.kitty Node.windows_terminal "kitty" eq_refl).
Defined.

Lemma generate_dry_run_witness :
  files (output (run (Node.generate "WezTerm" "lcd"
                        {| output_file := Some "/tmp/retro.lua"; dryRun := true |}))) = [].
Proof.
  eapply proj1.
  eapply (generate_dry_run Node.toLowerCase Node.toUpperCase Node.cwd Node.path_join
            Node.writable Node.wezterm Node.alacritty Node.kitty Node.windows_terminal
            "WezTerm" "lcd" lcd _ (Some "/tmp/retro.lua")); reflexivity.
Defined.

Lemma generate_terminal_case_insensitive_witness :
  run (Node.generate "KITTY" "lcd" {| output_file := None; dryRun := false |}) =
  run (Node.generate "kitty" "lcd" {| output_file := None; dryRun := false |}).
Proof.
  apply (generate_terminal_case_insensitive
           Node.toLowerCase Node.toUpperCase Node.cwd Node.path_join
           Node.writable Node.wezterm Node.alacritty Node.kitty Node.windows_terminal
           "KITTY" "kitty" "lcd"); reflexivity.
Defined.

Lemma preview_shows_generated_config_witness :
  exists config summary,
    Node.kitty (amber tt) = Normal config /\
    stdout (output (run (Node.preview (Some "amber")
                           {| preview_terminal := Some "kitty";
                              preview_dryRun := false |}))) =
    List.app summary [ nl ++ "📄 KITTY Preview:"; repeat "─" 40; config; EmptyString ].
Proof.
  eexists.
  edestruct (preview_shows_generated_config
               Node.toLowerCase Node.toUpperCase Node.cwd Node.path_join
               Node.writable Node.wezterm Node.alacritty Node.kitty Node.windows_terminal
               "kitty" "amber" amber) as [summary Hs];
    [ discriminate | reflexivity | reflexivity | vm_compute; reflexivity | ].
  exists summary. split; [ vm_compute; reflexivity | exact Hs ].
Defined.

Lemma apply_prepends_header_witness :
  exists header config,
    Node.alacritty (amber tt) = Normal config /\
    header = "# Alacritty config - copy to ~/.config/alacritty/retro_skin.yml" /\
    stdout (output (run (Node.apply "alacritty"
                           {| output_file := None; dryRun := false |} "amber"))) =
    [ nl ++ "📄 Generated Config:" ++ nl; header ++ nl ++ nl ++ config ].
Proof.
  edestruct (apply_prepends_header
               Node.toLowerCase Node.toUpperCase Node.cwd Node.path_join
               Node.writable Node.wezterm Node.alacritty Node.kitty Node.windows_terminal
               "alacritty" "amber" amber) as (header & Hrun & Hh);
    [ reflexivity | reflexivity | vm_compute; reflexivity | ].
  exists header. eexists. split; [ vm_compute; reflexivity | ].
  split.
  - destruct Hh as [[H _] | [[_ H] | [[H _] | [H _]]]];
      [ discriminate H | exact H | discriminate H | discriminate H ].
  - unfold Node.apply. rewrite Hrun. reflexivity.
Defined.

Lemma apply_joins_every_output_path_witness :
  let join_paths := fun dir file : string =>
    match file with
    | String "/" rest => dir ++ "/" ++ rest
    | _ => dir ++ "/" ++ file
    end in
  let tmp_only := fun path : string => String.prefix "/tmp/" path in
  map fst (files (output (run (Cli.generate Node.toLowerCase Node.toUpperCase
                                 "/home/user" join_paths tmp_only
                                 Node.wezterm Node.alacritty Node.kitty Node.windows_terminal
                                 "kitty" "lcd"
                                 {| output_file := Some "/tmp/retro.conf";
                                    dryRun := false |})))) =
    [ "/tmp/retro.conf" ] /\
  ending (run (Cli.apply Node.toLowerCase "/home/user" join_paths tmp_only
                 Node.wezterm Node.alacritty Node.kitty Node.windows_terminal
                 "kitty"
                 {| output_file := Some "/tmp/retro.conf"; dryRun := false |} "lcd")) =
    Crashed (SystemError "/home/user/tmp/retro.conf").
Proof.
  cbv zeta.
  destruct (Node.kitty (lcd tt)) as [config | e] eqn:Hk; [ | discriminate Hk ].
  destruct (apply_joins_every_output_path
              Node.toLowerCase Node.toUpperCase "/home/user"
              (fun dir file : string =>
                 match file with
                 | String "/" rest => dir ++ "/" ++ rest
                 | _ => dir ++ "/" ++ file
                 end)
              (fun path : string => String.prefix "/tmp/" path)
              Node.wezterm Node.alacritty Node.kitty Node.windows_terminal
              "kitty" "lcd" "/tmp/retro.conf" lcd config eq_refl eq_refl Hk eq_refl)
    as [Hgenerate Happly].
  split; [ exact (proj1 Hgenerate) | exact (proj2 Happly) ].
Defined.

Lemma generate_exit_zero_iff_witness :
  exit_code (run (Node.generate "kitty" "lcd"
                    {| output_file := Some "/tmp/retro.conf"; dryRun := false |})) = 0%Z /\
  (exit_code (run (Node.generate "kitty" "lcd"
                     {| output_file := Some "/missing/retro.conf"; dryRun := false |})) = 0%Z ->
   False).
Proof.
  assert (Hown : ~ In "lcd" Object_prototype_keys)
    by (unfold Object_prototype_keys; simpl; intuition discriminate).
  split.
  - apply (proj1 (generate_exit_zero_iff
                    Node.toLowerCase Node.toUpperCase Node.cwd Node.path_join
                    Node.writable Node.wezterm Node.alacritty Node.kitty
                    Node.windows_terminal "kitty" "lcd" _ Hown)).
    exists lcd. eexists.
    split; [ reflexivity | ]. split; [ reflexivity | ]. split; [ reflexivity | ].
    right. right. reflexivity.
  - intros Hzero.
    apply (proj1 (generate_exit_zero_iff
                    Node.toLowerCase Node.toUpperCase Node.cwd Node.path_join
                    Node.writable Node.wezterm Node.alacritty Node.kitty
                    Node.windows_terminal "kitty" "lcd" _ Hown)) in Hzero.
    destruct Hzero as (f & c & _ & _ & _ & [H | [H | H]]); discriminate H.
Defined.

Lemma preview_inherited_name_crashes_witness :
  ending (run (Node.preview (Some "constructor")
                 {| preview_terminal := None; preview_dryRun := false |})) =
  Crashed TypeError.
Proof.
  eapply proj1.
  apply (preview_inherited_name_crashes
           Node.toLowerCase Node.toUpperCase
           Node.wezterm Node.alacritty Node.kitty Node.windows_terminal
           "constructor").
  simpl. tauto.
Defined.

Lemma preview_without_terminal_calls_no_adapter_witness :
  run (Node.preview (Some "phosphor")
         {| preview_terminal := None; preview_dryRun := false |}) =
  run (Cli.preview Node.toLowerCase Node.toUpperCase
         (fun _ => Throw TypeError) (fun _ => Throw TypeError)
         (fun _ => Throw TypeError) (fun _ => Throw TypeError)
         (Some "phosphor") {| preview_terminal := None; preview_dryRun := false |}).
Proof.
  apply (preview_without_terminal_calls_no_adapter
           Node.toLowerCase Node.toUpperCase
           Node.wezterm Node.alacritty Node.kitty Node.windows_terminal
           (fun _ => Throw TypeError) (fun _ => Throw TypeError)
           (fun _ => Throw TypeError) (fun _ => Throw TypeError)).
  reflexivity.
Defined.

End CliRuns.
